(** * SolarAiHelper: the solar potential calculator

    A shallow embedding of [backend/solar_calculations.py] (class
    [SolarCalculator]) and of the tables of [config/constants.py] it reads,
    followed by the properties of the sizing, energy and financial pipeline.

    Modelling conventions.
    - Python numbers (int and float) that carry quantities are exact
      rationals ([Q]); counts produced by [int(...)] are integers ([Z]).
      The model has no rounding and no infinities.  The one not-a-number
      the code can produce from finite data, [np.mean] of an empty
      sequence, is modelled explicitly (see [np_mean]).
    - Python dictionaries received from callers ([roof_metrics],
      [solar_data]) are finite maps from strings to dynamically typed
      values; a missing key raises [KeyError], an operand of the wrong
      type raises [TypeError].
    - [try: ... except Exception:] is an error monad with a handler:
      every stage has a body that may raise and a total wrapper that
      substitutes the stage's default. *)

From Stdlib Require Import QArith Qround Qminmax Qabs ZArith Lia Lqa List Ascii.
From Stdlib Require Import Floats.
From stdpp Require Import gmap strings.
Import ListNotations.

Local Open Scope Q_scope.

(** ** Python numbers *)

Module PyNum.

Definition Qlt_bool (a b : Q) : bool := negb (Qle_bool b a).

(** [int(x)] on a float truncates toward zero. *)
Definition py_int (x : Q) : Z :=
  if Qle_bool 0 x then Qfloor x else Qceiling x.

(** [min(a, b)] keeps [a] unless [b < a]; [max(a, b)] keeps [a] unless
    [b > a]. *)
Definition py_min (a b : Q) : Q := if Qlt_bool b a then b else a.
Definition py_max (a b : Q) : Q := if Qlt_bool a b then b else a.

(** Powers with a natural exponent, for the compounding formulas. *)
Fixpoint Qpow (q : Q) (n : nat) : Q :=
  match n with
  | O => 1
  | S k => Qpow q k * q
  end.

End PyNum.
Export PyNum.

(** ** Exceptions and [try]/[except] *)

Inductive exn : Type :=
| KeyError (key : string)
| TypeError
| AttributeError
| ZeroDivisionError.

Inductive result (A : Type) : Type :=
| Ok (a : A)
| Raise (e : exn).
Arguments Ok {A} a.
Arguments Raise {A} e.

#[global] Instance result_ret : MRet result := fun A a => Ok a.
#[global] Instance result_bind : MBind result := fun A B k c =>
  match c with
  | Ok a => k a
  | Raise e => Raise e
  end.

(** [try: body  except Exception: handler]. *)
Definition try_except {A : Type} (body : result A) (handler : exn -> A) : A :=
  match body with
  | Ok a => a
  | Raise e => handler e
  end.

(** True division of floats. *)
Definition py_div (a b : Q) : result Q :=
  if Qeq_bool b 0 then Raise ZeroDivisionError else Ok (a / b).

(** ** The payback search ([_calculate_payback_period]) *)

Record payback_state : Type := mk_payback_state {
  cumulative_savings : Q;
  year : Z;
  current_annual_savings : Q
}.

(** [cumulative_savings < initial_cost and year < 50] *)
Definition payback_cond (initial_cost : Q) (st : payback_state) : bool :=
  Qlt_bool (cumulative_savings st) initial_cost && (year st <? 50)%Z.

(** One pass through the body of the [while]. *)
Definition payback_step (escalation_rate : Q) (st : payback_state) : payback_state :=
  {| cumulative_savings := cumulative_savings st + current_annual_savings st;
     year := (year st + 1)%Z;
     current_annual_savings := current_annual_savings st * (1 + escalation_rate) |}.

(** The [while] loop, with a bound on the number of passes.  The loop
    condition itself stops at year 50, so 50 passes are always enough
    ([payback_loop_exits], [payback_loop_more_fuel]). *)
Fixpoint payback_loop (fuel : nat) (initial_cost escalation_rate : Q)
    (st : payback_state) : payback_state :=
  match fuel with
  | O => st
  | S fuel' =>
      if payback_cond initial_cost st
      then payback_loop fuel' initial_cost escalation_rate
             (payback_step escalation_rate st)
      else st
  end.

Definition payback_init (annual_savings : Q) : payback_state :=
  {| cumulative_savings := 0; year := 0; current_annual_savings := annual_savings |}.

Definition _calculate_payback_period (initial_cost annual_savings escalation_rate : Q) : Q :=
  if Qle_bool annual_savings 0 then 99
  else
    let st := payback_loop 50 initial_cost escalation_rate (payback_init annual_savings) in
    py_min (inject_Z (year st)) 50.

(** The state after [k] passes through the loop body. *)
Abbreviation payback_iter_from escalation savings k :=
  (Nat.iter k (payback_step escalation) (payback_init savings)).

(** The sum the specification speaks of: the savings of years [1..n],
    year [k] contributing [annual_savings * (1 + escalation)^(k-1)]. *)
Fixpoint escalated_sum (annual_savings escalation : Q) (n : nat) : Q :=
  match n with
  | O => 0
  | S k => escalated_sum annual_savings escalation k
           + annual_savings * Qpow (1 + escalation) k
  end.

(** ** Dynamically typed values and dictionaries *)

Inductive pyval : Type :=
| VNum (q : Q)
| VStr (s : string)
| VList (l : list Q)
| VNone.

(** [d[key]] *)
Definition getitem (d : gmap string pyval) (key : string) : result pyval :=
  match d !! key with
  | Some v => Ok v
  | None => Raise (KeyError key)
  end.

(** [key in d] *)
Definition has_key (d : gmap string pyval) (key : string) : bool :=
  bool_decide (is_Some (d !! key)).

(** A value used as an operand of float arithmetic or of a comparison
    with a number. *)
Definition as_num (v : pyval) : result Q :=
  match v with
  | VNum q => Ok q
  | _ => Raise TypeError
  end.

(** [s.lower()], on the ASCII letters. *)
Definition lower_ascii (c : ascii) : ascii :=
  let n := nat_of_ascii c in
  if (65 <=? n)%nat && (n <=? 90)%nat then ascii_of_nat (n + 32) else c.

Fixpoint lower (s : string) : string :=
  match s with
  | EmptyString => EmptyString
  | String c s' => String (lower_ascii c) (lower s')
  end.

(** [v.lower()]: only strings have the method. *)
Definition py_lower (v : pyval) : result string :=
  match v with
  | VStr s => Ok (lower s)
  | _ => Raise AttributeError
  end.

Definition Qsum (l : list Q) : Q := fold_right Qplus 0 l.

(** [np.mean(v)].  The mean of an empty sequence is nan (numpy warns and
    does not raise): [None] stands for nan. *)
Definition np_mean (v : pyval) : result (option Q) :=
  match v with
  | VNum q => Ok (Some q)
  | VList [] => Ok None
  | VList l => Ok (Some (Qsum l / inject_Z (Z.of_nat (length l))))
  | VStr _ | VNone => Raise TypeError
  end.

(** ** Configuration tables ([config/constants.py]) *)

Record PanelSpec : Type := mk_panel_spec {
  power_watts : Z;
  efficiency : Q;
  area_m2 : Q;
  cost_premium : Q;
  lifespan_years : Z;
  degradation_rate : Q
}.

Definition monocrystalline : PanelSpec :=
  {| power_watts := 400; efficiency := 20 # 100; area_m2 := 2;
     cost_premium := 1; lifespan_years := 25; degradation_rate := 5 # 1000 |}.
Definition polycrystalline : PanelSpec :=
  {| power_watts := 350; efficiency := 17 # 100; area_m2 := 2;
     cost_premium := 85 # 100; lifespan_years := 25; degradation_rate := 6 # 1000 |}.
Definition thin_film : PanelSpec :=
  {| power_watts := 250; efficiency := 12 # 100; area_m2 := 2;
     cost_premium := 70 # 100; lifespan_years := 20; degradation_rate := 8 # 1000 |}.
Definition bifacial : PanelSpec :=
  {| power_watts := 450; efficiency := 22 # 100; area_m2 := 2;
     cost_premium := 120 # 100; lifespan_years := 30; degradation_rate := 4 # 1000 |}.

Definition PANEL_SPECS : gmap string PanelSpec :=
  <["monocrystalline" := monocrystalline]>
  (<["polycrystalline" := polycrystalline]>
  (<["thin_film" := thin_film]>
  (<["bifacial" := bifacial]> ∅))).

Record SystemLosses : Type := mk_system_losses {
  inverter_efficiency : Q;
  dc_losses : Q;
  ac_losses : Q;
  soiling_losses : Q;
  temperature_coefficient : Q;
  mismatch_losses : Q;
  snow_losses : Q
}.

Definition SYSTEM_LOSSES : SystemLosses :=
  {| inverter_efficiency := 96 # 100; dc_losses := 98 # 100;
     ac_losses := 99 # 100; soiling_losses := 95 # 100;
     temperature_coefficient := 4 # 1000; mismatch_losses := 98 # 100;
     snow_losses := 99 # 100 |}.

Record FinancialParams : Type := mk_financial_params {
  federal_tax_credit : Q;
  electricity_rate_escalation : Q;
  discount_rate : Q;
  system_lifespan_years : Z;
  inverter_replacement_year : Z;
  inverter_replacement_cost : Q
}.

Definition FINANCIAL_PARAMS : FinancialParams :=
  {| federal_tax_credit := 30 # 100; electricity_rate_escalation := 3 # 100;
     discount_rate := 4 # 100; system_lifespan_years := 25;
     inverter_replacement_year := 15; inverter_replacement_cost := 20 # 100 |}.

(** ** SystemSizer ([_calculate_system_size]) *)

Definition system_size_body (roof_metrics : gmap string pyval)
    (panel_specs : PanelSpec) : result Q :=
  v ← getitem roof_metrics "usable_area";
  let panel_area := area_m2 panel_specs in
  let panel_power := power_watts panel_specs in
  usable_area ← as_num v;
  fit ← py_div usable_area panel_area;
  let max_panels := py_int fit in
  let spacing_factor := 75 # 100 in
  let actual_panels := py_int (inject_Z max_panels * spacing_factor) in
  let system_size_kw := inject_Z (actual_panels * panel_power) / 1000 in
  let system_size_kw := py_min system_size_kw 50 in
  Ok (py_max 1 system_size_kw).

Definition _calculate_system_size (roof_metrics : gmap string pyval)
    (panel_specs : PanelSpec) : Q :=
  try_except (system_size_body roof_metrics panel_specs) (fun _ => 5).

(** ** EnergyEstimator ([_calculate_annual_energy] and its factors) *)

Definition orientation_factors : gmap string Q :=
  <["south" := 100 # 100]>
  (<["southeast" := 95 # 100]>
  (<["southwest" := 95 # 100]>
  (<["east" := 85 # 100]>
  (<["west" := 85 # 100]>
  (<["northeast" := 75 # 100]>
  (<["northwest" := 75 # 100]>
  (<["north" := 60 # 100]> ∅))))))).

Definition _get_orientation_factor (orientation : pyval) : result Q :=
  key ← py_lower orientation;
  Ok (default (85 # 100) (orientation_factors !! key)).

Definition _get_tilt_factor (slope_degrees : pyval) : result Q :=
  slope ← as_num slope_degrees;
  Ok (if Qlt_bool slope 10 then 90 # 100
      else if Qle_bool slope 15 then 95 # 100
      else if Qle_bool slope 25 then 100 # 100
      else if Qle_bool slope 35 then 98 # 100
      else if Qle_bool slope 45 then 95 # 100
      else 85 # 100).

(** Product of the four loss-chain coefficients the estimator reads. *)
Definition performance_ratio : Q :=
  inverter_efficiency SYSTEM_LOSSES
  * dc_losses SYSTEM_LOSSES
  * ac_losses SYSTEM_LOSSES
  * soiling_losses SYSTEM_LOSSES.

(** The three-way choice of the daily irradiance ([None] is nan). *)
Definition daily_irradiance_of (solar_data : gmap string pyval) : result (option Q) :=
  if has_key solar_data "annual_irradiance" then
    v ← getitem solar_data "annual_irradiance";
    annual ← as_num v;
    Ok (Some (annual / 365))
  else if has_key solar_data "monthly_irradiance" then
    v ← getitem solar_data "monthly_irradiance";
    np_mean v
  else Ok (Some (45 # 10)).

Definition annual_energy_body (system_size_kw : Q)
    (solar_data roof_metrics : gmap string pyval)
    (panel_specs : PanelSpec) : result Q :=
  daily_irradiance ← daily_irradiance_of solar_data;
  o ← getitem roof_metrics "orientation";
  orientation_factor ← _get_orientation_factor o;
  sl ← getitem roof_metrics "slope";
  tilt_factor ← _get_tilt_factor sl;
  sh ← getitem roof_metrics "shading_factor";
  shading ← as_num sh;
  let shading_factor := 1 - shading in
  Ok (match daily_irradiance with
      | Some daily =>
          let annual_energy_kwh :=
            system_size_kw * daily * orientation_factor * tilt_factor
            * shading_factor * performance_ratio * 365 in
          py_max 0 annual_energy_kwh
      | None => 0  (* a product with nan is nan, and max(0, nan) is 0 *)
      end).

Definition _calculate_annual_energy (system_size_kw : Q)
    (solar_data roof_metrics : gmap string pyval)
    (panel_specs : PanelSpec) : Q :=
  try_except (annual_energy_body system_size_kw solar_data roof_metrics panel_specs)
             (fun _ => system_size_kw * 1200).

Definition _calculate_capacity_factor (annual_energy_kwh system_size_kw : Q) : result Q :=
  if Qeq_bool system_size_kw 0 then Ok 0
  else
    let theoretical_max := system_size_kw * 8760 in
    capacity_factor ← py_div annual_energy_kwh theoretical_max;
    Ok (py_min 1 (py_max 0 capacity_factor)).

(** ** FinancialEngine *)

Record FinancialMetrics : Type := mk_financial_metrics {
  total_cost : Q;
  federal_incentive : Q;
  net_cost : Q;
  annual_savings : Q;
  monthly_savings : Q;
  payback_years : Q;
  lifetime_savings : Q;
  roi_percent : Q;
  cost_per_watt : Q;
  savings_per_kwh : Q
}.

(** [for year in range(years)] with its two accumulators. *)
Fixpoint lifetime_loop (years : nat) (escalation_rate total_savings current : Q) : Q :=
  match years with
  | O => total_savings
  | S years' =>
      lifetime_loop years' escalation_rate
        (total_savings + current) (current * (1 + escalation_rate))
  end.

Definition _calculate_lifetime_savings (annual_savings escalation_rate : Q)
    (years : nat) : Q :=
  lifetime_loop years escalation_rate 0 annual_savings.

Definition _get_default_financial_metrics : FinancialMetrics :=
  {| total_cost := 15000; federal_incentive := 4500; net_cost := 10500;
     annual_savings := 1200; monthly_savings := 100; payback_years := 88 # 10;
     lifetime_savings := 30000; roi_percent := 1857 # 10;
     cost_per_watt := 3; savings_per_kwh := 20 # 100 |}.

Definition financial_body (system_size_kw annual_energy_kwh electricity_rate
    installation_cost_per_watt : Q) : result FinancialMetrics :=
  let total_cost := system_size_kw * 1000 * installation_cost_per_watt in
  let federal_incentive := total_cost * federal_tax_credit FINANCIAL_PARAMS in
  let net_cost := total_cost - federal_incentive in
  let annual_savings := annual_energy_kwh * electricity_rate in
  let escalation_rate := electricity_rate_escalation FINANCIAL_PARAMS in
  let payback_years := _calculate_payback_period net_cost annual_savings escalation_rate in
  let lifetime_savings := _calculate_lifetime_savings annual_savings escalation_rate 25 in
  roi_percent ←
    (if Qlt_bool 0 net_cost
     then ratio ← py_div (lifetime_savings - net_cost) net_cost; Ok (ratio * 100)
     else Ok 0);
  let monthly_savings := annual_savings / 12 in
  Ok {| total_cost := total_cost; federal_incentive := federal_incentive;
        net_cost := net_cost; annual_savings := annual_savings;
        monthly_savings := monthly_savings; payback_years := payback_years;
        lifetime_savings := lifetime_savings; roi_percent := roi_percent;
        cost_per_watt := installation_cost_per_watt;
        savings_per_kwh := electricity_rate |}.

Definition _calculate_financial_metrics (system_size_kw annual_energy_kwh
    electricity_rate installation_cost_per_watt : Q) : FinancialMetrics :=
  try_except
    (financial_body system_size_kw annual_energy_kwh electricity_rate
       installation_cost_per_watt)
    (fun _ => _get_default_financial_metrics).

(** ** EnvironmentalImpactEstimator *)

Record EnvironmentalImpact : Type := mk_environmental_impact {
  annual_co2_offset_lbs : Q;
  annual_co2_offset_tons : Q;
  lifetime_co2_offset_tons : Q;
  equivalent_trees_planted : Q;
  equivalent_cars_removed : Q
}.

Definition environmental_body (annual_energy_kwh : Q) : result EnvironmentalImpact :=
  let co2_factor_lbs_per_kwh := 85 # 100 in
  let annual_co2_offset_lbs := annual_energy_kwh * co2_factor_lbs_per_kwh in
  let annual_co2_offset_tons := annual_co2_offset_lbs / 2000 in
  let lifetime_co2_offset_tons := annual_co2_offset_tons * 25 in
  let equivalent_trees := annual_co2_offset_lbs / 48 in
  let equivalent_cars := annual_co2_offset_tons / (46 # 10) in
  Ok {| annual_co2_offset_lbs := annual_co2_offset_lbs;
        annual_co2_offset_tons := annual_co2_offset_tons;
        lifetime_co2_offset_tons := lifetime_co2_offset_tons;
        equivalent_trees_planted := equivalent_trees;
        equivalent_cars_removed := equivalent_cars |}.

Definition _calculate_environmental_impact (annual_energy_kwh : Q) : EnvironmentalImpact :=
  try_except (environmental_body annual_energy_kwh)
    (fun _ => {| annual_co2_offset_lbs := 0; annual_co2_offset_tons := 0;
                 lifetime_co2_offset_tons := 0; equivalent_trees_planted := 0;
                 equivalent_cars_removed := 0 |}).

(** ** SolarPotentialCalculator ([calculate_potential]) *)

Record SystemSpecifications : Type := mk_system_specifications {
  panel_type : string;
  panel_power : Z;
  panel_efficiency : Q;
  system_losses : SystemLosses
}.

(** The result dictionary.  The source splices the financial and the
    environmental dictionaries into it ([**financial_metrics],
    [**environmental_impact]); their keys are disjoint from the others,
    so they are kept here as two sub-records. *)
Record SolarPotential : Type := mk_solar_potential {
  system_size_kw : Q;
  panel_count : Z;
  annual_energy_kwh : Q;
  monthly_energy_kwh : Q;
  daily_energy_kwh : Q;
  capacity_factor : Q;
  financial_metrics : FinancialMetrics;
  environmental_impact : EnvironmentalImpact;
  system_specifications : SystemSpecifications
}.

Definition _get_default_potential : SolarPotential :=
  {| system_size_kw := 5;
     panel_count := 16;
     annual_energy_kwh := 6000;
     monthly_energy_kwh := 500;
     daily_energy_kwh := 164 # 10;
     capacity_factor := 14 # 100;
     financial_metrics := _get_default_financial_metrics;
     environmental_impact :=
       {| annual_co2_offset_lbs := 5100; annual_co2_offset_tons := 255 # 100;
          lifetime_co2_offset_tons := 6375 # 100; equivalent_trees_planted := 106;
          equivalent_cars_removed := 55 # 100 |};
     system_specifications :=
       {| panel_type := "monocrystalline"; panel_power := 400;
          panel_efficiency := 20 # 100; system_losses := SYSTEM_LOSSES |} |}.

(** [PANEL_SPECS.get(panel_type, PANEL_SPECS['monocrystalline'])] *)
Definition panel_specs_for (panel_type : string) : PanelSpec :=
  default monocrystalline (PANEL_SPECS !! panel_type).

Definition potential_body (roof_metrics solar_data : gmap string pyval)
    (panel_type : string) (electricity_rate installation_cost_per_watt : Q)
    : result SolarPotential :=
  let panel_specs := panel_specs_for panel_type in
  let system_size_kw := _calculate_system_size roof_metrics panel_specs in
  let annual_energy_kwh :=
    _calculate_annual_energy system_size_kw solar_data roof_metrics panel_specs in
  let financial_metrics :=
    _calculate_financial_metrics system_size_kw annual_energy_kwh
      electricity_rate installation_cost_per_watt in
  let environmental_impact := _calculate_environmental_impact annual_energy_kwh in
  panels ← py_div (system_size_kw * 1000) (inject_Z (power_watts panel_specs));
  capacity_factor ← _calculate_capacity_factor annual_energy_kwh system_size_kw;
  Ok {| system_size_kw := system_size_kw;
        panel_count := py_int panels;
        annual_energy_kwh := annual_energy_kwh;
        monthly_energy_kwh := annual_energy_kwh / 12;
        daily_energy_kwh := annual_energy_kwh / 365;
        capacity_factor := capacity_factor;
        financial_metrics := financial_metrics;
        environmental_impact := environmental_impact;
        system_specifications :=
          {| panel_type := panel_type;
             panel_power := power_watts panel_specs;
             panel_efficiency := efficiency panel_specs;
             system_losses := SYSTEM_LOSSES |} |}.

Definition calculate_potential (roof_metrics solar_data : gmap string pyval)
    (panel_type : string) (electricity_rate installation_cost_per_watt : Q)
    : SolarPotential :=
  try_except
    (potential_body roof_metrics solar_data panel_type electricity_rate
       installation_cost_per_watt)
    (fun _ => _get_default_potential).

(** ** Sample inputs *)

(** The roof and the irradiance series of the specification's scenario A. *)
Definition roof_A : gmap string pyval :=
  <["usable_area" := VNum 90]>
  (<["orientation" := VStr "south"]>
  (<["slope" := VNum 25]>
  (<["shading_factor" := VNum (15 # 100)]> ∅))).

Definition solar_A : gmap string pyval :=
  <["monthly_irradiance" := VList (repeat (45 # 10) 12)]> ∅.

(** The same roof without its [usable_area] key. *)
Definition roof_no_area : gmap string pyval := delete "usable_area" roof_A.

(** ** How a result was obtained *)

(** A fully computed result: no stage fell back on its default, every
    stage body returned normally on the values computed before it, and
    the orchestrator assembled them. *)
Definition fully_computed (roof_metrics solar_data : gmap string pyval)
    (panel_type : string) (electricity_rate installation_cost_per_watt : Q)
    (r : SolarPotential) : Prop :=
  exists (size energy : Q) (fm : FinancialMetrics) (env : EnvironmentalImpact),
    system_size_body roof_metrics (panel_specs_for panel_type) = Ok size
    /\ annual_energy_body size solar_data roof_metrics (panel_specs_for panel_type)
       = Ok energy
    /\ financial_body size energy electricity_rate installation_cost_per_watt = Ok fm
    /\ environmental_body energy = Ok env
    /\ potential_body roof_metrics solar_data panel_type electricity_rate
         installation_cost_per_watt = Ok r.

(** A result assembled stage by stage: each stage contributes either the
    value its body computed or, when its body raised, its own default,
    and the later stages run on whatever the earlier ones contributed. *)
Definition assembled_by_stage (roof_metrics solar_data : gmap string pyval)
    (panel_type : string) (electricity_rate installation_cost_per_watt : Q)
    (r : SolarPotential) : Prop :=
  let panel_specs := panel_specs_for panel_type in
  (system_size_body roof_metrics panel_specs = Ok (system_size_kw r)
   \/ (exists e, system_size_body roof_metrics panel_specs = Raise e)
      /\ system_size_kw r = 5)
  /\ (annual_energy_body (system_size_kw r) solar_data roof_metrics panel_specs
      = Ok (annual_energy_kwh r)
      \/ (exists e, annual_energy_body (system_size_kw r) solar_data roof_metrics
                      panel_specs = Raise e)
         /\ annual_energy_kwh r = system_size_kw r * 1200)
  /\ financial_body (system_size_kw r) (annual_energy_kwh r) electricity_rate
       installation_cost_per_watt = Ok (financial_metrics r)
  /\ environmental_body (annual_energy_kwh r) = Ok (environmental_impact r).

(** ** Around the calculator *)

(** *** The roof dictionary the enhanced application builds
    ([extract_roof_metrics_for_calculator] in [app_enhanced.py]) *)

(** [roof_analysis] is a dictionary of dictionaries; [d.get(key, {})]
    gives the empty dictionary for a missing section. *)
Definition extract_roof_metrics_for_calculator
    (roof_analysis : gmap string (gmap string pyval)) : gmap string pyval :=
  let seg_data := default ∅ (roof_analysis !! "roof_segmentation") in
  let shading_data := default ∅ (roof_analysis !! "shading_analysis") in
  let obs_data := default ∅ (roof_analysis !! "obstacle_detection") in
  <["total_area" := default (VNum 120) (seg_data !! "total_roof_area_m2")]>
  (<["usable_area" := default (VNum 90) (seg_data !! "usable_area_m2")]>
  (<["orientation" := default (VStr "south") (seg_data !! "primary_orientation")]>
  (<["slope" := default (VNum 25) (seg_data !! "average_slope_degrees")]>
  (<["shading_factor" := default (VNum (15 # 100)) (shading_data !! "shading_factor")]>
  (<["obstruction_count" := default (VNum 0) (obs_data !! "obstacles_detected")]> ∅))))).

(** *** The impact texts of the report ([backend/report_generator.py]) *)

Definition impacts : gmap string string :=
  <["south" := "Optimal for solar production"]>
  (<["southeast" := "Excellent for solar production"]>
  (<["southwest" := "Excellent for solar production"]>
  (<["east" := "Good for morning production"]>
  (<["west" := "Good for afternoon production"]>
  (<["northeast" := "Moderate solar potential"]>
  (<["northwest" := "Moderate solar potential"]>
  (<["north" := "Limited solar potential"]> ∅))))))).

Definition _get_orientation_impact (orientation : pyval) : result string :=
  key ← py_lower orientation;
  Ok (default "Variable impact" (impacts !! key)).

Definition _get_slope_impact (slope : pyval) : result string :=
  s ← as_num slope;
  Ok (if Qlt_bool s 10 then "May require ballasted mounting"
      else if Qle_bool s 30 then "Optimal for solar installation"
      else if Qle_bool s 45 then "Good for solar, may need special mounting"
      else "Steep roof, special mounting required").

(** *** Estimated irradiance data ([backend/nasa_api.py]) *)

Definition _estimate_irradiance_by_latitude (latitude : Q) : Q :=
  let abs_latitude := Qabs latitude in
  if Qle_bool abs_latitude (235 # 10) then 1800
  else if Qle_bool abs_latitude 35 then 1600
  else if Qle_bool abs_latitude 45 then 1400
  else if Qle_bool abs_latitude 60 then 1100
  else 800.

Definition monthly_factors : list Q :=
  [6 # 100; 7 # 100; 8 # 100; 9 # 100; 10 # 100; 11 # 100;
   11 # 100; 10 # 100; 9 # 100; 8 # 100; 6 # 100; 5 # 100].

Definition _distribute_annual_irradiance (annual_irradiance : Q) : list Q :=
  let daily_annual := annual_irradiance / 365 in
  map (fun factor => daily_annual * factor * 365) monthly_factors.

Definition seasonal_factors : gmap Z Q :=
  <[1%Z := 6 # 10]> (<[2%Z := 7 # 10]> (<[3%Z := 85 # 100]> (<[4%Z := 1]>
  (<[5%Z := 115 # 100]> (<[6%Z := 12 # 10]> (<[7%Z := 12 # 10]>
  (<[8%Z := 11 # 10]> (<[9%Z := 95 # 100]> (<[10%Z := 8 # 10]>
  (<[11%Z := 65 # 100]> (<[12%Z := 55 # 100]> ∅))))))))))).

(** [np.mean] of a list of floats known to be non-empty. *)
Definition list_mean (l : list Q) : Q := Qsum l / inject_Z (Z.of_nat (length l)).

Definition _estimate_monthly_irradiance (month : Z) (available_data : list Q) : Q :=
  let base_irradiance :=
    match available_data with
    | [] => 45 # 10
    | _ :: _ => list_mean available_data
    end in
  base_irradiance * default 1 (seasonal_factors !! month).

Definition _fill_missing_months (partial_data reference_data : list Q) : list Q :=
  let avg_irradiance :=
    match partial_data, reference_data with
    | _ :: _, _ => list_mean partial_data
    | [], _ :: _ => list_mean reference_data
    | [], [] => 45 # 10
    end in
  map (fun month => _estimate_monthly_irradiance month [avg_irradiance]) (seqZ 1 12).

(** ** The sizer, the panel count and the payback search in binary64

    The definitions above compute with exact rationals.  Two results of
    the program are integers obtained through rounded arithmetic: the
    panel count ([int(system_size_kw * 1000 / power_watts)]) and the
    payback year (the first year at which the rounded running sum
    reaches the cost).  For these the rounding decides the integer, so
    the sizer, the panel count and the payback search are given here a
    second time on IEEE 754 binary64 numbers, the arithmetic of Python
    floats: [float] is Rocq's primitive binary64 type, with
    round-to-nearest-even operations. *)

Module Binary64.

Set Warnings "-inexact-float".

Inductive exn : Type :=
| KeyError (key : string)
| TypeError
| ZeroDivisionError
| OverflowError
| ValueError.

Inductive result (A : Type) : Type :=
| Ok (a : A)
| Raise (e : exn).
Arguments Ok {A} a.
Arguments Raise {A} e.

#[global] Instance result_ret : MRet result := fun A a => Ok a.
#[global] Instance result_bind : MBind result := fun A B k c =>
  match c with
  | Ok a => k a
  | Raise e => Raise e
  end.

Definition try_except {A : Type} (body : result A) (handler : exn -> A) : A :=
  match body with
  | Ok a => a
  | Raise e => handler e
  end.

(** A Python number is an [int] or a [float]. *)
Inductive pynum : Type :=
| PInt (z : Z)
| PFloat (x : float).

Inductive pyval : Type :=
| VFloat (x : float)
| VInt (z : Z)
| VStr (s : string)
| VNone.

Definition getitem (d : gmap string pyval) (key : string) : result pyval :=
  match d !! key with
  | Some v => Ok v
  | None => Raise (KeyError key)
  end.

(** [int(x)] on a float: truncation toward zero; [OverflowError] on an
    infinity and [ValueError] on a nan. *)
Definition py_int (x : float) : result Z :=
  match Prim2SF x with
  | S754_zero _ => Ok 0%Z
  | S754_infinity _ => Raise OverflowError
  | S754_nan => Raise ValueError
  | S754_finite s m e => Ok (cond_Zopp s (Z.shiftl (Zpos m) e))
  end.

(** The conversion of an [int] operand to [float] that mixed arithmetic
    performs: the nearest binary64 number, [OverflowError] beyond the
    range. *)
Definition float_of_int (z : Z) : result float :=
  match binary_normalize prec emax z 0 false with
  | S754_infinity _ => Raise OverflowError
  | sf => Ok (SF2Prim sf)
  end.

(** A value used as an operand of float arithmetic. *)
Definition as_float (v : pyval) : result float :=
  match v with
  | VFloat x => Ok x
  | VInt z => float_of_int z
  | _ => Raise TypeError
  end.

(** [a / b] on floats. *)
Definition float_truediv (a b : float) : result float :=
  if (b =? 0)%float then Raise ZeroDivisionError else Ok (a / b)%float.

(** [a / b] on ints: the exact quotient of the two integers rounded
    once to the nearest binary64 number (ties to even), as CPython's
    integer true division does; [OverflowError] when the quotient is
    beyond the range. *)
Definition int_truediv (a b : Z) : result float :=
  if (b =? 0)%Z then Raise ZeroDivisionError
  else
    let sign := xorb (a <? 0)%Z (b <? 0)%Z in
    if (a =? 0)%Z then Ok (SF2Prim (S754_zero sign))
    else
      let '(q, e, l) := SFdiv_core_binary prec emax (Z.abs a) 0 (Z.abs b) 0 in
      match binary_round_aux prec emax sign q e l with
      | S754_infinity _ => Raise OverflowError
      | sf => Ok (SF2Prim sf)
      end.

(** [min(a, b)] and [max(a, b)] on floats. *)
Definition py_min (a b : float) : float := if (b <? a)%float then b else a.
Definition py_max (a b : float) : float := if (a <? b)%float then b else a.

(** The exact floor and the exact value of a finite float. *)
Definition float_floor (x : float) : option Z :=
  match Prim2SF x with
  | S754_zero _ => Some 0%Z
  | S754_finite s m e => Some (Z.shiftl (cond_Zopp s (Zpos m)) e)
  | _ => None
  end.

Definition exact_value (x : float) : option Q :=
  match Prim2SF x with
  | S754_zero _ => Some 0
  | S754_finite s m e => Some (inject_Z (cond_Zopp s (Zpos m)) * 2 ^ e)
  | _ => None
  end.

(** The panel catalog. *)
Record PanelSpec : Type := mk_panel_spec {
  power_watts : Z;
  efficiency : float;
  area_m2 : float;
  cost_premium : float;
  lifespan_years : Z;
  degradation_rate : float
}.

Definition monocrystalline : PanelSpec :=
  {| power_watts := 400; efficiency := 0.20; area_m2 := 2.0;
     cost_premium := 1.0; lifespan_years := 25; degradation_rate := 0.005 |}.
Definition polycrystalline : PanelSpec :=
  {| power_watts := 350; efficiency := 0.17; area_m2 := 2.0;
     cost_premium := 0.85; lifespan_years := 25; degradation_rate := 0.006 |}.
Definition thin_film : PanelSpec :=
  {| power_watts := 250; efficiency := 0.12; area_m2 := 2.0;
     cost_premium := 0.70; lifespan_years := 20; degradation_rate := 0.008 |}.
Definition bifacial : PanelSpec :=
  {| power_watts := 450; efficiency := 0.22; area_m2 := 2.0;
     cost_premium := 1.20; lifespan_years := 30; degradation_rate := 0.004 |}.

Definition PANEL_SPECS : gmap string PanelSpec :=
  <["monocrystalline" := monocrystalline]>
  (<["polycrystalline" := polycrystalline]>
  (<["thin_film" := thin_film]>
  (<["bifacial" := bifacial]> ∅))).

Definition panel_specs_for (panel_type : string) : PanelSpec :=
  default monocrystalline (PANEL_SPECS !! panel_type).

(** [_calculate_system_size] *)
Definition system_size_body (roof_metrics : gmap string pyval)
    (panel_specs : PanelSpec) : result float :=
  v ← getitem roof_metrics "usable_area";
  let panel_area := area_m2 panel_specs in
  let panel_power := power_watts panel_specs in
  usable_area ← as_float v;
  fit ← float_truediv usable_area panel_area;
  max_panels ← py_int fit;
  let spacing_factor := 0.75%float in
  max_panels' ← float_of_int max_panels;
  actual_panels ← py_int (max_panels' * spacing_factor)%float;
  system_size_kw ← int_truediv (actual_panels * panel_power) 1000;
  let system_size_kw := py_min system_size_kw 50 in
  Ok (py_max 1 system_size_kw).

Definition _calculate_system_size (roof_metrics : gmap string pyval)
    (panel_specs : PanelSpec) : float :=
  try_except (system_size_body roof_metrics panel_specs) (fun _ => 5%float).

(** The [panel_count] entry of the result dictionary of
    [calculate_potential]:
    [int(system_size_kw * 1000 / panel_specs['power_watts'])]. *)
Definition panel_count_entry (system_size_kw : float) (panel_specs : PanelSpec)
    : result Z :=
  thousand ← float_of_int 1000;
  power ← float_of_int (power_watts panel_specs);
  quotient ← float_truediv (system_size_kw * thousand)%float power;
  py_int quotient.

(** [_calculate_payback_period] *)
Record payback_state : Type := mk_payback_state {
  cumulative_savings : float;
  year : Z;
  current_annual_savings : float
}.

Definition payback_cond (initial_cost : float) (st : payback_state) : bool :=
  (cumulative_savings st <? initial_cost)%float && (year st <? 50)%Z.

Definition payback_step (escalation_rate : float) (st : payback_state)
    : payback_state :=
  {| cumulative_savings := (cumulative_savings st + current_annual_savings st)%float;
     year := (year st + 1)%Z;
     current_annual_savings :=
       (current_annual_savings st * (1 + escalation_rate))%float |}.

(** The [while] loop with a bound on its passes; the loop condition
    stops at year 50, so 50 passes are enough. *)
Fixpoint payback_loop (fuel : nat) (initial_cost escalation_rate : float)
    (st : payback_state) : payback_state :=
  match fuel with
  | O => st
  | S fuel' =>
      if payback_cond initial_cost st
      then payback_loop fuel' initial_cost escalation_rate
             (payback_step escalation_rate st)
      else st
  end.

Definition payback_init (annual_savings : float) : payback_state :=
  {| cumulative_savings := 0; year := 0; current_annual_savings := annual_savings |}.

(** [min(year, 50.0)] keeps the int [year] unless [50.0 < year]. *)
Definition _calculate_payback_period
    (initial_cost annual_savings escalation_rate : float) : pynum :=
  if (annual_savings <=? 0)%float then PFloat 99
  else
    let st := payback_loop 50 initial_cost escalation_rate
                (payback_init annual_savings) in
    if (50 <? year st)%Z then PFloat 50 else PInt (year st).

(** The running sum as the loop accumulates it: after [n] years, the
    pair of the cumulative savings and of the savings of the next year,
    each addition and each multiplication by [1 + escalation] rounded. *)
Fixpoint accumulated (annual_savings escalation : float) (n : nat) : float * float :=
  match n with
  | O => (0%float, annual_savings)
  | S k =>
      let '(cumulative, current) := accumulated annual_savings escalation k in
      ((cumulative + current)%float, (current * (1 + escalation))%float)
  end.

Definition accumulated_savings (annual_savings escalation : float) (n : nat) : float :=
  fst (accumulated annual_savings escalation n).

(** Sample roofs: 248 m2, and no area at all. *)
Definition roof_248 : gmap string pyval := <["usable_area" := VFloat 248]> ∅.

End Binary64.

(** * Properties *)

(** ** Numbers *)

Section Numbers.

Lemma Qlt_bool_iff (a b : Q) : Qlt_bool a b = true <-> a < b.
Proof.
  unfold Qlt_bool. rewrite negb_true_iff. split.
  - intros H. apply Qnot_le_lt. intros Hle.
    apply Qle_bool_iff in Hle. congruence.
  - intros H. destruct (Qle_bool b a) eqn:E; [|reflexivity].
    apply Qle_bool_iff in E. exfalso. apply (Qlt_not_le _ _ H E).
Qed.

Lemma Qlt_bool_false_iff (a b : Q) : Qlt_bool a b = false <-> b <= a.
Proof.
  unfold Qlt_bool. rewrite negb_false_iff. apply Qle_bool_iff.
Qed.

Lemma Qle_bool_false_iff (a b : Q) : Qle_bool a b = false <-> b < a.
Proof.
  rewrite <- Qlt_bool_iff. unfold Qlt_bool.
  destruct (Qle_bool a b); simpl; intuition congruence.
Qed.

Lemma py_min_spec (a b : Q) :
  py_min a b <= a /\ py_min a b <= b /\ (py_min a b = a \/ py_min a b = b).
Proof.
  unfold py_min. destruct (Qlt_bool b a) eqn:E.
  - apply Qlt_bool_iff in E. repeat split; [lra | lra | now right].
  - apply Qlt_bool_false_iff in E. repeat split; [lra | lra | now left].
Qed.

Lemma py_max_spec (a b : Q) :
  a <= py_max a b /\ b <= py_max a b /\ (py_max a b = a \/ py_max a b = b).
Proof.
  unfold py_max. destruct (Qlt_bool a b) eqn:E.
  - apply Qlt_bool_iff in E. repeat split; [lra | lra | now right].
  - apply Qlt_bool_false_iff in E. repeat split; [lra | lra | now left].
Qed.

Lemma py_max_Qmax (a b : Q) : py_max a b == Qmax a b.
Proof.
  unfold py_max. destruct (Qlt_bool a b) eqn:E.
  - apply Qlt_bool_iff in E. symmetry. apply Q.max_r. lra.
  - apply Qlt_bool_false_iff in E. symmetry. now apply Q.max_l.
Qed.

Lemma py_min_Qmin (a b : Q) : py_min a b == Qmin a b.
Proof.
  unfold py_min. destruct (Qlt_bool b a) eqn:E.
  - apply Qlt_bool_iff in E. symmetry. apply Q.min_r. lra.
  - apply Qlt_bool_false_iff in E. symmetry. now apply Q.min_l.
Qed.

Lemma py_min_mono (a a' b : Q) : a <= a' -> py_min a b <= py_min a' b.
Proof.
  intros H. rewrite !py_min_Qmin. apply Q.min_le_compat_r, H.
Qed.

Lemma py_max_mono (a b b' : Q) : b <= b' -> py_max a b <= py_max a b'.
Proof.
  intros H. rewrite !py_max_Qmax. apply Q.max_le_compat_l, H.
Qed.


(** Truncation toward zero is monotone. *)
Lemma py_int_mono (x y : Q) : x <= y -> (py_int x <= py_int y)%Z.
Proof.
  intros H. unfold py_int.
  destruct (Qle_bool 0 x) eqn:Ex, (Qle_bool 0 y) eqn:Ey.
  - now apply Qfloor_resp_le.
  - apply Qle_bool_iff in Ex. apply Qle_bool_false_iff in Ey. lra.
  - apply Qle_bool_false_iff in Ex. apply Qle_bool_iff in Ey.
    apply Z.le_trans with 0%Z.
    + change 0%Z with (Qceiling 0). apply Qceiling_resp_le. lra.
    + change 0%Z with (Qfloor 0). now apply Qfloor_resp_le.
  - now apply Qceiling_resp_le.
Qed.

End Numbers.

(** ** The payback search *)

Section Payback.

Variables initial_cost escalation : Q.

(** The state after [k] passes through the loop body. *)
Lemma payback_iter_year (savings : Q) (k : nat) :
  year (payback_iter_from escalation savings k) = Z.of_nat k.
Proof.
  induction k as [|k IH]; [reflexivity|].
  simpl Nat.iter. simpl year. rewrite IH. lia.
Qed.

Lemma payback_iter_sums (savings : Q) (k : nat) :
  cumulative_savings (payback_iter_from escalation savings k) == escalated_sum savings escalation k
  /\ current_annual_savings (payback_iter_from escalation savings k)
     == savings * Qpow (1 + escalation) k.
Proof.
  induction k as [|k [IHc IHs]].
  - simpl. split; [reflexivity | ring].
  - simpl Nat.iter.
    simpl cumulative_savings. simpl current_annual_savings.
    rewrite IHc, IHs. simpl. split; ring.
Qed.

(** What the bounded loop returns: the state after [j] passes, all of
    them entered with a true condition, and stopped either by the
    bound or by a false condition. *)
Lemma payback_loop_spec (fuel : nat) (st : payback_state) :
  exists j : nat,
    (j <= fuel)%nat
    /\ payback_loop fuel initial_cost escalation st
       = Nat.iter j (payback_step escalation) st
    /\ (forall i : nat, (i < j)%nat ->
          payback_cond initial_cost (Nat.iter i (payback_step escalation) st) = true)
    /\ (j = fuel
        \/ payback_cond initial_cost (Nat.iter j (payback_step escalation) st) = false).
Proof.
  revert st. induction fuel as [|fuel IH]; intros st.
  - exists 0%nat. repeat split; [lia | intros i Hi; lia | now left].
  - simpl. destruct (payback_cond initial_cost st) eqn:E.
    + destruct (IH (payback_step escalation st)) as (j & Hj & Heq & Hbefore & Hstop).
      exists (S j). rewrite Nat.iter_succ_r. repeat split.
      * lia.
      * exact Heq.
      * intros [|i] Hi; [exact E|].
        rewrite Nat.iter_succ_r. apply Hbefore. lia.
      * destruct Hstop as [-> | Hstop]; [now left | now right].
    + exists 0%nat. repeat split; [lia | intros i Hi; lia | now right].
Qed.

(** Fifty passes are enough: the state returned falsifies the loop
    condition, so the [while] has really exited. *)
Lemma payback_loop_exits (savings : Q) :
  payback_cond initial_cost
    (payback_loop 50 initial_cost escalation (payback_init savings)) = false.
Proof.
  destruct (payback_loop_spec 50 (payback_init savings))
    as (j & Hj & -> & _ & [-> | Hstop]); [|exact Hstop].
  unfold payback_cond. rewrite payback_iter_year. apply andb_false_r.
Qed.

Lemma payback_loop_idem (fuel : nat) (st : payback_state) :
  payback_cond initial_cost st = false ->
  payback_loop fuel initial_cost escalation st = st.
Proof. intros H. destruct fuel; simpl; [|rewrite H]; reflexivity. Qed.

Lemma payback_loop_add (f1 f2 : nat) (st : payback_state) :
  payback_loop (f1 + f2) initial_cost escalation st
  = payback_loop f2 initial_cost escalation
      (payback_loop f1 initial_cost escalation st).
Proof.
  revert st. induction f1 as [|f1 IH]; intros st; [reflexivity|].
  simpl. destruct (payback_cond initial_cost st) eqn:E.
  - apply IH.
  - symmetry. now apply payback_loop_idem.
Qed.

(** A larger bound changes nothing. *)
Lemma payback_loop_more_fuel (extra : nat) (savings : Q) :
  payback_loop (50 + extra) initial_cost escalation (payback_init savings)
  = payback_loop 50 initial_cost escalation (payback_init savings).
Proof.
  rewrite payback_loop_add. apply payback_loop_idem, payback_loop_exits.
Qed.


End Payback.




(** C9.  With a cost that is zero or negative and positive savings the
    loop is never entered and the payback is 0. *)
Theorem payback_nonpositive_cost (initial_cost annual_savings escalation : Q) :
  initial_cost <= 0 -> 0 < annual_savings ->
  payback_loop 50 initial_cost escalation (payback_init annual_savings)
  = payback_init annual_savings
  /\ _calculate_payback_period initial_cost annual_savings escalation == 0.
Proof.
  intros Hc Hs.
  assert (Hloop : payback_loop 50 initial_cost escalation (payback_init annual_savings)
                  = payback_init annual_savings).
  { apply payback_loop_idem. unfold payback_cond. simpl.
    apply andb_false_iff. left. now apply Qlt_bool_false_iff. }
  split; [exact Hloop|].
  unfold _calculate_payback_period. rewrite Hloop.
  destruct (Qle_bool annual_savings 0) eqn:E;
    [apply Qle_bool_iff in E; lra|].
  reflexivity.
Qed.

Lemma payback_nonpositive_cost_witness :
  0 <= 0 /\ 0 < 1200 /\ _calculate_payback_period 0 1200 (3 # 100) == 0.
Proof.
  split; [discriminate|]. split; [reflexivity|].
  apply (payback_nonpositive_cost 0 1200 (3 # 100)); [discriminate | reflexivity].
Defined.

(** ** FinancialEngine *)

Arguments _calculate_payback_period : simpl never.
Arguments _calculate_lifetime_savings : simpl never.

(** Binding a stage that returned normally. *)
Lemma bind_Ok {A B : Type} (a : A) (k : A -> result B) : (Ok a ≫= k) = k a.
Proof. reflexivity. Qed.

Lemma bind_Raise {A B : Type} (e : exn) (k : A -> result B) :
  (Raise e ≫= k) = Raise e.
Proof. reflexivity. Qed.

Lemma py_div_nonzero (a b : Q) : ~ b == 0 -> py_div a b = Ok (a / b).
Proof.
  intros H. unfold py_div. destruct (Qeq_bool b 0) eqn:E; [|reflexivity].
  apply Qeq_bool_iff in E. contradiction.
Qed.

(** The body of the financial stage always returns normally. *)
Lemma financial_body_returns
    (system_size annual_energy electricity_rate installation_cost_per_watt : Q) :
  financial_body system_size annual_energy electricity_rate installation_cost_per_watt
  = Ok (_calculate_financial_metrics system_size annual_energy electricity_rate
          installation_cost_per_watt).
Proof.
  unfold _calculate_financial_metrics, financial_body. cbv zeta.
  set (total := system_size * 1000 * installation_cost_per_watt).
  set (net := total - total * federal_tax_credit FINANCIAL_PARAMS).
  destruct (Qlt_bool 0 net) eqn:E.
  - apply Qlt_bool_iff in E.
    rewrite py_div_nonzero by lra. reflexivity.
  - reflexivity.
Qed.

(** C8.  The financial computation never raises, whatever the rate and
    the installation cost (zero included); its ROI is
    [(lifetime_savings - net_cost) / net_cost * 100] when the net cost is
    positive and 0 otherwise, so the division is never reached with a
    zero divisor and the default metrics of the handler are never used. *)
Theorem financial_roi_spec
    (system_size annual_energy electricity_rate installation_cost_per_watt : Q) :
  exists fm : FinancialMetrics,
    financial_body system_size annual_energy electricity_rate
      installation_cost_per_watt = Ok fm
    /\ _calculate_financial_metrics system_size annual_energy electricity_rate
         installation_cost_per_watt = fm
    /\ net_cost fm = system_size * 1000 * installation_cost_per_watt
                     - system_size * 1000 * installation_cost_per_watt * (30 # 100)
    /\ lifetime_savings fm
       = _calculate_lifetime_savings (annual_energy * electricity_rate) (3 # 100) 25
    /\ (0 < net_cost fm ->
          roi_percent fm == (lifetime_savings fm - net_cost fm) / net_cost fm * 100)
    /\ (net_cost fm <= 0 -> roi_percent fm == 0).
Proof.
  unfold _calculate_financial_metrics, financial_body. cbv zeta.
  set (total := system_size * 1000 * installation_cost_per_watt).
  set (net := total - total * federal_tax_credit FINANCIAL_PARAMS).
  destruct (Qlt_bool 0 net) eqn:E.
  - apply Qlt_bool_iff in E.
    rewrite py_div_nonzero by lra. rewrite !bind_Ok.
    eexists. split; [reflexivity|]. split; [reflexivity|]. simpl.
    repeat split; try reflexivity; intros; try reflexivity; lra.
  - apply Qlt_bool_false_iff in E. rewrite bind_Ok.
    eexists. split; [reflexivity|]. split; [reflexivity|]. simpl.
    repeat split; try reflexivity; intros; try reflexivity; lra.
Qed.

(** ** SystemSizer *)

Lemma panel_specs_for_cases (panel_type : string) :
  panel_specs_for panel_type = monocrystalline
  \/ panel_specs_for panel_type = polycrystalline
  \/ panel_specs_for panel_type = thin_film
  \/ panel_specs_for panel_type = bifacial.
Proof.
  unfold panel_specs_for, PANEL_SPECS.
  repeat (rewrite lookup_insert; case_decide; [simpl; tauto|]).
  rewrite lookup_empty. simpl. tauto.
Qed.

(** Every catalog entry has a positive area and a positive power. *)
Lemma panel_specs_for_positive (panel_type : string) :
  0 < area_m2 (panel_specs_for panel_type)
  /\ (0 < power_watts (panel_specs_for panel_type))%Z.
Proof.
  destruct (panel_specs_for_cases panel_type) as [-> | [-> | [-> | ->]]];
    split; reflexivity.
Qed.

(** The size the sizer computes from [usable_area] panel by panel. *)
Lemma system_size_body_num (roof_metrics : gmap string pyval)
    (panel_specs : PanelSpec) (usable_area : Q) :
  roof_metrics !! "usable_area" = Some (VNum usable_area) ->
  ~ area_m2 panel_specs == 0 ->
  system_size_body roof_metrics panel_specs
  = Ok (py_max 1
          (py_min
             (inject_Z
                (py_int (inject_Z (py_int (usable_area / area_m2 panel_specs))
                         * (75 # 100))
                 * power_watts panel_specs) / 1000)
             50)).
Proof.
  intros Hk Ha. unfold system_size_body, getitem. rewrite Hk.
  rewrite bind_Ok. cbv zeta. simpl as_num. rewrite bind_Ok.
  rewrite py_div_nonzero by exact Ha. reflexivity.
Qed.

Lemma system_size_range (roof_metrics : gmap string pyval) (panel_specs : PanelSpec) :
  1 <= _calculate_system_size roof_metrics panel_specs <= 50.
Proof.
  unfold _calculate_system_size.
  destruct (system_size_body roof_metrics panel_specs) as [size|e] eqn:E;
    unfold try_except; cbv beta; [|lra].
  unfold system_size_body in E.
  destruct (getitem roof_metrics "usable_area") as [v|e]; [|discriminate].
  rewrite bind_Ok in E. cbv zeta in E.
  destruct (as_num v) as [a|e]; [|discriminate].
  rewrite bind_Ok in E.
  destruct (py_div a (area_m2 panel_specs)) as [fit|e]; [|discriminate].
  rewrite bind_Ok in E. injection E as <-.
  match goal with |- 1 <= py_max 1 (py_min ?x 50) <= 50 =>
    destruct (py_max_spec 1 (py_min x 50)) as (H1 & H2 & [Heq | Heq]);
    destruct (py_min_spec x 50) as (H3 & H4 & _);
    rewrite Heq in H1 |- *
  end; lra.
Qed.

Lemma system_size_monotone_spec (roof1 roof2 : gmap string pyval)
    (panel_specs : PanelSpec) (a1 a2 : Q) :
  0 < area_m2 panel_specs -> (0 <= power_watts panel_specs)%Z ->
  roof1 !! "usable_area" = Some (VNum a1) ->
  roof2 !! "usable_area" = Some (VNum a2) ->
  a1 <= a2 ->
  _calculate_system_size roof1 panel_specs <= _calculate_system_size roof2 panel_specs.
Proof.
  intros Harea Hpow H1 H2 Hle. unfold _calculate_system_size.
  rewrite (system_size_body_num roof1 panel_specs a1 H1) by lra.
  rewrite (system_size_body_num roof2 panel_specs a2 H2) by lra.
  unfold try_except. apply py_max_mono, py_min_mono.
  apply Qmult_le_compat_r; [|discriminate].
  rewrite <- Zle_Qle. apply Z.mul_le_mono_nonneg_r; [exact Hpow|].
  apply py_int_mono. apply Qmult_le_compat_r; [|discriminate].
  rewrite <- Zle_Qle. apply py_int_mono.
  apply Qmult_le_compat_r; [exact Hle|].
  apply Qinv_le_0_compat. lra.
Qed.

(** C7.  With everything else fixed, a larger usable area never gives a
    smaller system, and a system already at the 50 kW cap stays at 50. *)
Theorem system_size_monotone (a1 a2 : Q) (roof_metrics : gmap string pyval)
    (panel_type : string) :
  a1 <= a2 ->
  _calculate_system_size (<["usable_area" := VNum a1]> roof_metrics)
    (panel_specs_for panel_type)
  <= _calculate_system_size (<["usable_area" := VNum a2]> roof_metrics)
       (panel_specs_for panel_type)
  /\ (_calculate_system_size (<["usable_area" := VNum a1]> roof_metrics)
        (panel_specs_for panel_type) == 50 ->
      _calculate_system_size (<["usable_area" := VNum a2]> roof_metrics)
        (panel_specs_for panel_type) == 50).
Proof.
  intros Hle.
  destruct (panel_specs_for_positive panel_type) as [Harea Hpow].
  assert (Hmono :
    _calculate_system_size (<["usable_area" := VNum a1]> roof_metrics)
      (panel_specs_for panel_type)
    <= _calculate_system_size (<["usable_area" := VNum a2]> roof_metrics)
         (panel_specs_for panel_type)).
  { apply (system_size_monotone_spec _ _ _ a1 a2); try assumption; try lia.
    - apply lookup_insert_eq.
    - apply lookup_insert_eq. }
  split; [exact Hmono|]. intros H50.
  pose proof (system_size_range (<["usable_area" := VNum a2]> roof_metrics)
                (panel_specs_for panel_type)) as [_ Hup].
  apply Qle_antisym; [exact Hup|]. rewrite <- H50. exact Hmono.
Qed.

Lemma system_size_monotone_witness :
  100 <= 400 /\
  _calculate_system_size (<["usable_area" := VNum 100]> roof_A)
    (panel_specs_for "monocrystalline")
  <= _calculate_system_size (<["usable_area" := VNum 400]> roof_A)
       (panel_specs_for "monocrystalline").
Proof.
  split; [discriminate|].
  apply (system_size_monotone 100 400 roof_A "monocrystalline"). discriminate.
Defined.

(** ** The orchestrator *)

Lemma py_int_nonneg (x : Q) : 0 <= x -> py_int x = Qfloor x.
Proof.
  intros H. unfold py_int. apply Qle_bool_iff in H. now rewrite H.
Qed.

(** With a catalog panel and scalar rate and cost, nothing outside the
    stages can raise: the body of [calculate_potential] returns the
    record assembled from the four stage results. *)
Lemma potential_body_returns (roof_metrics solar_data : gmap string pyval)
    (panel_type : string) (electricity_rate installation_cost_per_watt : Q) :
  exists r : SolarPotential,
    potential_body roof_metrics solar_data panel_type electricity_rate
      installation_cost_per_watt = Ok r
    /\ system_size_kw r = _calculate_system_size roof_metrics (panel_specs_for panel_type)
    /\ panel_count r
       = py_int (system_size_kw r * 1000
                 / inject_Z (power_watts (panel_specs_for panel_type)))
    /\ annual_energy_kwh r
       = _calculate_annual_energy (system_size_kw r) solar_data roof_metrics
           (panel_specs_for panel_type)
    /\ financial_metrics r
       = _calculate_financial_metrics (system_size_kw r) (annual_energy_kwh r)
           electricity_rate installation_cost_per_watt
    /\ environmental_impact r = _calculate_environmental_impact (annual_energy_kwh r)
    /\ system_specifications r
       = {| panel_type := panel_type;
            panel_power := power_watts (panel_specs_for panel_type);
            panel_efficiency := efficiency (panel_specs_for panel_type);
            system_losses := SYSTEM_LOSSES |}.
Proof.
  unfold potential_body. cbv zeta.
  destruct (panel_specs_for_positive panel_type) as [_ Hpow].
  destruct (system_size_range roof_metrics (panel_specs_for panel_type)) as [Hlo _].
  rewrite py_div_nonzero.
  2:{ intros H. unfold Qeq in H. simpl in H. lia. }
  rewrite bind_Ok. unfold _calculate_capacity_factor.
  destruct (Qeq_bool (_calculate_system_size roof_metrics (panel_specs_for panel_type)) 0)
    eqn:E; [apply Qeq_bool_iff in E; lra|].
  rewrite py_div_nonzero by lra. rewrite !bind_Ok.
  eexists. split; [reflexivity|]. simpl. repeat split.
Qed.



Lemma system_size_missing_key (roof_metrics : gmap string pyval)
    (panel_specs : PanelSpec) :
  roof_metrics !! "usable_area" = None ->
  system_size_body roof_metrics panel_specs = Raise (KeyError "usable_area")
  /\ _calculate_system_size roof_metrics panel_specs = 5.
Proof.
  intros Hk. unfold _calculate_system_size, system_size_body, getitem.
  rewrite Hk. split; reflexivity.
Qed.

(** C2 (amended).  When [roof_metrics] has no [usable_area] key the
    sizer catches the [KeyError] itself and answers 5.0 kW; the
    orchestrator does not raise and does not use its fallback record: it
    goes on with the 5.0 kW size, so the panel count is
    [5000 // panel power] (12, 14, 20 or 11 for the catalog panels, never
    16) and the energy stage is run on 5.0 kW. *)
Theorem missing_usable_area_result (roof_metrics solar_data : gmap string pyval)
    (panel_type : string) (electricity_rate installation_cost_per_watt : Q) :
  roof_metrics !! "usable_area" = None ->
  exists r : SolarPotential,
    potential_body roof_metrics solar_data panel_type electricity_rate
      installation_cost_per_watt = Ok r
    /\ calculate_potential roof_metrics solar_data panel_type electricity_rate
         installation_cost_per_watt = r
    /\ system_size_kw r = 5
    /\ panel_count r = (5000 / power_watts (panel_specs_for panel_type))%Z
    /\ panel_count r <> 16%Z
    /\ annual_energy_kwh r
       = _calculate_annual_energy 5 solar_data roof_metrics (panel_specs_for panel_type).
Proof.
  intros Hk.
  destruct (potential_body_returns roof_metrics solar_data panel_type
              electricity_rate installation_cost_per_watt)
    as (r & Hbody & Hsize & Hcount & Henergy & _).
  destruct (system_size_missing_key roof_metrics (panel_specs_for panel_type) Hk)
    as [_ H5].
  rewrite H5 in Hsize. rewrite Hsize in Hcount, Henergy.
  exists r. split; [exact Hbody|].
  split; [unfold calculate_potential; rewrite Hbody; reflexivity|].
  split; [exact Hsize|].
  assert (Hc : panel_count r = (5000 / power_watts (panel_specs_for panel_type))%Z).
  { rewrite Hcount.
    destruct (panel_specs_for_cases panel_type) as [-> | [-> | [-> | ->]]];
      reflexivity. }
  split; [exact Hc|]. split; [|exact Henergy].
  rewrite Hc.
  destruct (panel_specs_for_cases panel_type) as [-> | [-> | [-> | ->]]];
    discriminate.
Qed.

Lemma missing_usable_area_result_witness :
  roof_no_area !! "usable_area" = None
  /\ system_size_kw (calculate_potential roof_no_area solar_A "monocrystalline"
                       (20 # 100) 3) = 5
  /\ panel_count (calculate_potential roof_no_area solar_A "monocrystalline"
                    (20 # 100) 3) = 12%Z.
Proof.
  assert (Hk : roof_no_area !! "usable_area" = None) by reflexivity.
  split; [exact Hk|].
  destruct (missing_usable_area_result roof_no_area solar_A "monocrystalline"
              (20 # 100) 3 Hk) as (r & _ & -> & Hsize & Hcount & _).
  split; [exact Hsize | exact Hcount].
Defined.

(** C2, as stated, fails: without the [usable_area] key the result has
    12 panels (monocrystalline), not the 16 of the fallback record. *)
Lemma missing_usable_area_is_not_fallback :
  ~ (system_size_kw (calculate_potential roof_no_area solar_A "monocrystalline"
                       (20 # 100) 3) == 5
     /\ panel_count (calculate_potential roof_no_area solar_A "monocrystalline"
                       (20 # 100) 3) = 16%Z).
Proof. intros [_ H]. vm_compute in H. discriminate. Qed.

(** C3 (amended).  [calculate_potential] always returns, and what it
    returns is either the full fallback record (its own handler) or a
    record assembled stage by stage, in which a stage that raised
    contributes its own default (5.0 kW for the sizer, 1200 kWh per kW
    for the energy estimate) while the other stages are computed. *)
Theorem stagewise_result (roof_metrics solar_data : gmap string pyval)
    (panel_type : string) (electricity_rate installation_cost_per_watt : Q) :
  calculate_potential roof_metrics solar_data panel_type electricity_rate
    installation_cost_per_watt = _get_default_potential
  \/ (potential_body roof_metrics solar_data panel_type electricity_rate
        installation_cost_per_watt
      = Ok (calculate_potential roof_metrics solar_data panel_type electricity_rate
              installation_cost_per_watt)
      /\ assembled_by_stage roof_metrics solar_data panel_type electricity_rate
           installation_cost_per_watt
           (calculate_potential roof_metrics solar_data panel_type electricity_rate
              installation_cost_per_watt)).
Proof.
  unfold calculate_potential.
  destruct (potential_body roof_metrics solar_data panel_type electricity_rate
              installation_cost_per_watt) as [r|e] eqn:Hbody;
    [right | left; reflexivity].
  unfold try_except. split; [reflexivity|].
  destruct (potential_body_returns roof_metrics solar_data panel_type
              electricity_rate installation_cost_per_watt)
    as (r' & Hbody' & Hsize & _ & Henergy & Hfin & Henv & _).
  rewrite Hbody in Hbody'. injection Hbody' as <-.
  unfold assembled_by_stage. cbv zeta. repeat apply conj.
  - rewrite Hsize. unfold _calculate_system_size.
    destruct (system_size_body roof_metrics (panel_specs_for panel_type)) as [s|e];
      [left | right; split; [exists e|]]; reflexivity.
  - rewrite Henergy. unfold _calculate_annual_energy.
    destruct (annual_energy_body (system_size_kw r) solar_data roof_metrics
                (panel_specs_for panel_type)) as [en|e];
      [left | right; split; [exists e|]]; reflexivity.
  - rewrite Hfin. apply financial_body_returns.
  - rewrite Henv. reflexivity.
Qed.

(** On the roof without [usable_area] the sizer contributes its default
    while the energy stage computes its value from it. *)
Example default_size_computed_energy :
  system_size_body roof_no_area (panel_specs_for "monocrystalline")
  = Raise (KeyError "usable_area")
  /\ annual_energy_body 5 solar_A roof_no_area (panel_specs_for "monocrystalline")
     = Ok (annual_energy_kwh
             (calculate_potential roof_no_area solar_A "monocrystalline" (20 # 100) 3)).
Proof. split; vm_compute; reflexivity. Qed.

(** C3, as stated, fails: that result is neither fully computed (the
    sizer raised) nor the fallback record (12 panels, not 16). *)
Lemma mixed_result_is_returned :
  ~ (fully_computed roof_no_area solar_A "monocrystalline" (20 # 100) 3
       (calculate_potential roof_no_area solar_A "monocrystalline" (20 # 100) 3)
     \/ calculate_potential roof_no_area solar_A "monocrystalline" (20 # 100) 3
        = _get_default_potential).
Proof.
  intros [(size & energy & fm & env & Hsize & _) | Hdefault].
  - vm_compute in Hsize. discriminate.
  - apply (f_equal panel_count) in Hdefault. vm_compute in Hdefault. discriminate.
Qed.

(** C10.  The computed result echoes the caller's [panel_type] string
    as it was given, while the power and the efficiency it reports are
    those of the panel actually used: the catalog entry, or the
    monocrystalline entry when the string is not in the catalog. *)
Theorem system_specifications_echo (roof_metrics solar_data : gmap string pyval)
    (requested : string) (electricity_rate installation_cost_per_watt : Q) :
  exists r : SolarPotential,
    potential_body roof_metrics solar_data requested electricity_rate
      installation_cost_per_watt = Ok r
    /\ calculate_potential roof_metrics solar_data requested electricity_rate
         installation_cost_per_watt = r
    /\ panel_type (system_specifications r) = requested
    /\ panel_power (system_specifications r) = power_watts (panel_specs_for requested)
    /\ panel_efficiency (system_specifications r)
       = efficiency (panel_specs_for requested)
    /\ (forall spec : PanelSpec, PANEL_SPECS !! requested = Some spec ->
          panel_power (system_specifications r) = power_watts spec
          /\ panel_efficiency (system_specifications r) = efficiency spec)
    /\ (PANEL_SPECS !! requested = None ->
          panel_power (system_specifications r) = 400%Z
          /\ panel_efficiency (system_specifications r) = 20 # 100).
Proof.
  destruct (potential_body_returns roof_metrics solar_data requested
              electricity_rate installation_cost_per_watt)
    as (r & Hbody & _ & _ & _ & _ & _ & Hspec).
  exists r. split; [exact Hbody|].
  split; [unfold calculate_potential; rewrite Hbody; reflexivity|].
  rewrite Hspec. simpl.
  split; [reflexivity|]. split; [reflexivity|]. split; [reflexivity|]. split.
  - intros spec Hin. unfold panel_specs_for. rewrite Hin. split; reflexivity.
  - intros Hout. unfold panel_specs_for. rewrite Hout. split; reflexivity.
Qed.

Lemma system_specifications_echo_witness :
  PANEL_SPECS !! "exotic" = None
  /\ panel_type (system_specifications
                   (calculate_potential roof_A solar_A "exotic" (20 # 100) 3))
     = "exotic"
  /\ panel_power (system_specifications
                    (calculate_potential roof_A solar_A "exotic" (20 # 100) 3))
     = 400%Z.
Proof.
  assert (Hk : PANEL_SPECS !! "exotic" = None) by reflexivity.
  split; [exact Hk|].
  destruct (system_specifications_echo roof_A solar_A "exotic" (20 # 100) 3)
    as (r & _ & -> & Hname & _ & _ & _ & Hunknown).
  split; [exact Hname | exact (proj1 (Hunknown Hk))].
Defined.

(** ** EnergyEstimator *)

Lemma has_key_Some (d : gmap string pyval) (key : string) (v : pyval) :
  d !! key = Some v -> has_key d key = true.
Proof.
  intros H. unfold has_key. apply bool_decide_eq_true_2. rewrite H. eauto.
Qed.

Lemma has_key_None (d : gmap string pyval) (key : string) :
  d !! key = None -> has_key d key = false.
Proof.
  intros H. unfold has_key. apply bool_decide_eq_false_2. rewrite H.
  apply is_Some_None.
Qed.

Lemma getitem_Some (d : gmap string pyval) (key : string) (v : pyval) :
  d !! key = Some v -> getitem d key = Ok v.
Proof. intros H. unfold getitem. now rewrite H. Qed.

(** The three sources of the daily irradiance. *)
Lemma daily_irradiance_annual (solar_data : gmap string pyval) (annual : Q) :
  solar_data !! "annual_irradiance" = Some (VNum annual) ->
  daily_irradiance_of solar_data = Ok (Some (annual / 365)).
Proof.
  intros H. unfold daily_irradiance_of.
  rewrite (has_key_Some _ _ _ H), (getitem_Some _ _ _ H). reflexivity.
Qed.

Lemma daily_irradiance_monthly (solar_data : gmap string pyval) (monthly : list Q) :
  solar_data !! "annual_irradiance" = None ->
  solar_data !! "monthly_irradiance" = Some (VList monthly) ->
  monthly <> [] ->
  daily_irradiance_of solar_data
  = Ok (Some (Qsum monthly / inject_Z (Z.of_nat (length monthly)))).
Proof.
  intros Ha Hm Hne. unfold daily_irradiance_of.
  rewrite (has_key_None _ _ Ha), (has_key_Some _ _ _ Hm), (getitem_Some _ _ _ Hm).
  destruct monthly; [contradiction | reflexivity].
Qed.

Lemma daily_irradiance_default (solar_data : gmap string pyval) :
  solar_data !! "annual_irradiance" = None ->
  solar_data !! "monthly_irradiance" = None ->
  daily_irradiance_of solar_data = Ok (Some (45 # 10)).
Proof.
  intros Ha Hm. unfold daily_irradiance_of.
  rewrite (has_key_None _ _ Ha), (has_key_None _ _ Hm). reflexivity.
Qed.

(** The energy body on a roof whose three entries have the right types,
    once the daily irradiance is known. *)
Lemma annual_energy_body_formula (system_size daily : Q)
    (solar_data roof_metrics : gmap string pyval) (panel_specs : PanelSpec)
    (o : string) (slope shading factor tilt : Q) :
  daily_irradiance_of solar_data = Ok (Some daily) ->
  roof_metrics !! "orientation" = Some (VStr o) ->
  roof_metrics !! "slope" = Some (VNum slope) ->
  roof_metrics !! "shading_factor" = Some (VNum shading) ->
  _get_orientation_factor (VStr o) = Ok factor ->
  _get_tilt_factor (VNum slope) = Ok tilt ->
  annual_energy_body system_size solar_data roof_metrics panel_specs
  = Ok (py_max 0 (system_size * daily * factor * tilt * (1 - shading)
                  * performance_ratio * 365)).
Proof.
  intros Hd Ho Hs Hsh Hf Ht. unfold annual_energy_body.
  rewrite Hd, bind_Ok, (getitem_Some _ _ _ Ho), bind_Ok, Hf, bind_Ok.
  rewrite (getitem_Some _ _ _ Hs), bind_Ok, Ht, bind_Ok.
  rewrite (getitem_Some _ _ _ Hsh), bind_Ok. reflexivity.
Qed.

(** C5.  On a roof with a string orientation and numeric slope and
    shading, the estimate is the product formula floored at 0, with the
    daily irradiance taken from the annual field when present, else from
    the mean of the monthly series, else the default 4.5; the estimator
    does not raise in any of the three cases, and the performance ratio
    is the product of the inverter, DC, AC and soiling coefficients. *)
Theorem annual_energy_formula (system_size : Q)
    (solar_data roof_metrics : gmap string pyval) (panel_specs : PanelSpec)
    (o : string) (slope shading : Q) :
  roof_metrics !! "orientation" = Some (VStr o) ->
  roof_metrics !! "slope" = Some (VNum slope) ->
  roof_metrics !! "shading_factor" = Some (VNum shading) ->
  exists factor tilt : Q,
    _get_orientation_factor (VStr o) = Ok factor
    /\ _get_tilt_factor (VNum slope) = Ok tilt
    /\ performance_ratio == (96 # 100) * (98 # 100) * (99 # 100) * (95 # 100)
    /\ (forall annual : Q,
          solar_data !! "annual_irradiance" = Some (VNum annual) ->
          exists energy : Q,
            annual_energy_body system_size solar_data roof_metrics panel_specs
            = Ok energy
            /\ _calculate_annual_energy system_size solar_data roof_metrics panel_specs
               = energy
            /\ energy == Qmax 0 (system_size * (annual / 365) * factor * tilt
                                 * (1 - shading) * performance_ratio * 365))
    /\ (forall monthly : list Q,
          solar_data !! "annual_irradiance" = None ->
          solar_data !! "monthly_irradiance" = Some (VList monthly) ->
          monthly <> [] ->
          exists energy : Q,
            annual_energy_body system_size solar_data roof_metrics panel_specs
            = Ok energy
            /\ _calculate_annual_energy system_size solar_data roof_metrics panel_specs
               = energy
            /\ energy == Qmax 0 (system_size
                                 * (Qsum monthly / inject_Z (Z.of_nat (length monthly)))
                                 * factor * tilt
                                 * (1 - shading) * performance_ratio * 365))
    /\ (solar_data !! "annual_irradiance" = None ->
        solar_data !! "monthly_irradiance" = None ->
        exists energy : Q,
          annual_energy_body system_size solar_data roof_metrics panel_specs
          = Ok energy
          /\ _calculate_annual_energy system_size solar_data roof_metrics panel_specs
             = energy
          /\ energy == Qmax 0 (system_size * (45 # 10) * factor * tilt
                               * (1 - shading) * performance_ratio * 365)).
Proof.
  intros Ho Hs Hsh.
  destruct (_get_orientation_factor (VStr o)) as [factor|e] eqn:Hf;
    [|discriminate Hf].
  destruct (_get_tilt_factor (VNum slope)) as [tilt|e] eqn:Ht;
    [|discriminate Ht].
  exists factor, tilt.
  split; [reflexivity|]. split; [reflexivity|]. split; [reflexivity|].
  assert (Hgen : forall daily : Q,
    daily_irradiance_of solar_data = Ok (Some daily) ->
    exists energy : Q,
      annual_energy_body system_size solar_data roof_metrics panel_specs = Ok energy
      /\ _calculate_annual_energy system_size solar_data roof_metrics panel_specs
         = energy
      /\ energy == Qmax 0 (system_size * daily * factor * tilt
                           * (1 - shading) * performance_ratio * 365)).
  { intros daily Hd.
    pose proof (annual_energy_body_formula system_size daily solar_data roof_metrics
                  panel_specs o slope shading factor tilt Hd Ho Hs Hsh Hf Ht) as Hb.
    eexists. split; [exact Hb|].
    split; [unfold _calculate_annual_energy; rewrite Hb; reflexivity|].
    apply py_max_Qmax. }
  split; [|split].
  - intros annual Ha. apply Hgen. now apply daily_irradiance_annual.
  - intros monthly Ha Hm Hne. apply Hgen. now apply daily_irradiance_monthly.
  - intros Ha Hm. apply Hgen. now apply daily_irradiance_default.
Qed.

Lemma annual_energy_formula_witness :
  roof_A !! "orientation" = Some (VStr "south")
  /\ roof_A !! "slope" = Some (VNum 25)
  /\ roof_A !! "shading_factor" = Some (VNum (15 # 100))
  /\ exists factor tilt : Q,
       _get_orientation_factor (VStr "south") = Ok factor
       /\ _get_tilt_factor (VNum 25) = Ok tilt
       /\ _calculate_annual_energy (132 # 10) solar_A roof_A monocrystalline
          == Qmax 0 ((132 # 10)
                     * (Qsum (repeat (45 # 10) 12) / inject_Z (Z.of_nat 12))
                     * factor * tilt * (1 - (15 # 100)) * performance_ratio * 365).
Proof.
  assert (Ho : roof_A !! "orientation" = Some (VStr "south")) by reflexivity.
  assert (Hs : roof_A !! "slope" = Some (VNum 25)) by reflexivity.
  assert (Hsh : roof_A !! "shading_factor" = Some (VNum (15 # 100))) by reflexivity.
  split; [exact Ho|]. split; [exact Hs|]. split; [exact Hsh|].
  destruct (annual_energy_formula (132 # 10) solar_A roof_A monocrystalline
              "south" 25 (15 # 100) Ho Hs Hsh)
    as (factor & tilt & Hf & Ht & _ & _ & Hmonthly & _).
  exists factor, tilt. split; [exact Hf|]. split; [exact Ht|].
  destruct (Hmonthly (repeat (45 # 10) 12)) as (energy & _ & -> & Heq);
    [reflexivity | reflexivity | discriminate | exact Heq].
Defined.

(** The orientation table: every factor lies between 0.60 and 1.00. *)
Lemma orientation_factor_bounds (key : string) :
  60 # 100 <= default (85 # 100) (orientation_factors !! key) <= 1.
Proof.
  unfold orientation_factors.
  repeat (rewrite lookup_insert; case_decide; [simpl; split; discriminate|]).
  rewrite lookup_empty. simpl. split; discriminate.
Qed.

Lemma lower_ascii_idem (c : ascii) : lower_ascii (lower_ascii c) = lower_ascii c.
Proof.
  destruct c as [[] [] [] [] [] [] [] []]; reflexivity.
Qed.

Lemma lower_idem (s : string) : lower (lower s) = lower s.
Proof.
  induction s as [|c s IH]; [reflexivity|].
  simpl. now rewrite lower_ascii_idem, IH.
Qed.

(** A product floored at 0 grows with a non-negative factor, whatever
    the sign of the other factors. *)
Lemma floored_product_mono (c f g t s p : Q) :
  0 <= f -> f <= g ->
  py_max 0 (c * f * t * s * p * 365) <= py_max 0 (c * g * t * s * p * 365).
Proof.
  intros H0 Hfg. rewrite !py_max_Qmax.
  set (k := c * t * s * p * 365).
  assert (Hx : c * f * t * s * p * 365 == f * k) by (unfold k; ring).
  assert (Hy : c * g * t * s * p * 365 == g * k) by (unfold k; ring).
  rewrite Hx, Hy. clearbody k.
  destruct (Qlt_le_dec k 0) as [Hneg | Hpos].
  - rewrite (Q.max_l 0 (f * k)).
    + apply Q.le_max_l.
    + assert (Hprod : 0 <= f * - k) by (apply Qmult_le_0_compat; lra).
      assert (Heq : f * k == - (f * - k)) by ring.
      rewrite Heq. lra.
  - apply Q.max_le_compat_l. apply Qmult_le_compat_r; assumption.
Qed.

(** The energy estimate as a function of the orientation string alone. *)
Lemma annual_energy_with_orientation (system_size : Q)
    (solar_data roof_metrics : gmap string pyval) (panel_specs : PanelSpec)
    (o : string) :
  _calculate_annual_energy system_size solar_data
    (<["orientation" := VStr o]> roof_metrics) panel_specs
  = try_except
      (daily_irradiance ← daily_irradiance_of solar_data;
       sl ← getitem roof_metrics "slope";
       tilt ← _get_tilt_factor sl;
       sh ← getitem roof_metrics "shading_factor";
       shading ← as_num sh;
       Ok (match daily_irradiance with
           | Some daily =>
               py_max 0 (system_size * daily
                         * default (85 # 100) (orientation_factors !! lower o)
                         * tilt * (1 - shading) * performance_ratio * 365)
           | None => 0
           end))
      (fun _ => system_size * 1200).
Proof.
  unfold _calculate_annual_energy, annual_energy_body, getitem.
  rewrite lookup_insert_eq.
  rewrite !lookup_insert_ne by discriminate.
  destruct (daily_irradiance_of solar_data) as [daily|e]; reflexivity.
Qed.

(** C6.  With everything else fixed, the estimate for a roof facing
    "south" is at least the estimate for any other orientation string;
    the table gives south 1.00, southeast and southwest 0.95, east and
    west 0.85, northeast and northwest 0.75, north 0.60, any other
    string 0.85, and the string is matched after lower-casing. *)
Theorem south_orientation_is_best (system_size : Q)
    (solar_data roof_metrics : gmap string pyval) (panel_specs : PanelSpec)
    (o : string) :
  _calculate_annual_energy system_size solar_data
    (<["orientation" := VStr o]> roof_metrics) panel_specs
  <= _calculate_annual_energy system_size solar_data
       (<["orientation" := VStr "south"]> roof_metrics) panel_specs
  /\ _get_orientation_factor (VStr "south") = Ok (100 # 100)
  /\ _get_orientation_factor (VStr "southeast") = Ok (95 # 100)
  /\ _get_orientation_factor (VStr "southwest") = Ok (95 # 100)
  /\ _get_orientation_factor (VStr "east") = Ok (85 # 100)
  /\ _get_orientation_factor (VStr "west") = Ok (85 # 100)
  /\ _get_orientation_factor (VStr "northeast") = Ok (75 # 100)
  /\ _get_orientation_factor (VStr "northwest") = Ok (75 # 100)
  /\ _get_orientation_factor (VStr "north") = Ok (60 # 100)
  /\ (orientation_factors !! lower o = None ->
      _get_orientation_factor (VStr o) = Ok (85 # 100))
  /\ _get_orientation_factor (VStr (lower o)) = _get_orientation_factor (VStr o).
Proof.
  split.
  - rewrite !annual_energy_with_orientation.
    assert (Hsouth : default (85 # 100) (orientation_factors !! lower "south")
                     = 100 # 100) by reflexivity.
    rewrite Hsouth.
    destruct (orientation_factor_bounds (lower o)) as [Hlo Hup].
    destruct (daily_irradiance_of solar_data) as [daily|e];
      rewrite ?bind_Ok, ?bind_Raise; [|apply Qle_refl].
    destruct (getitem roof_metrics "slope") as [sl|e];
      rewrite ?bind_Ok, ?bind_Raise; [|apply Qle_refl].
    destruct (_get_tilt_factor sl) as [tilt|e];
      rewrite ?bind_Ok, ?bind_Raise; [|apply Qle_refl].
    destruct (getitem roof_metrics "shading_factor") as [sh|e];
      rewrite ?bind_Ok, ?bind_Raise; [|apply Qle_refl].
    destruct (as_num sh) as [shading|e];
      rewrite ?bind_Ok, ?bind_Raise; [|apply Qle_refl].
    unfold try_except. destruct daily as [daily|]; [|apply Qle_refl].
    apply floored_product_mono; lra.
  - repeat (split; [reflexivity|]). split.
    + intros Hnone. unfold _get_orientation_factor, py_lower.
      rewrite bind_Ok, Hnone. reflexivity.
    + unfold _get_orientation_factor, py_lower. now rewrite lower_idem.
Qed.

(** Upper-case and mixed-case spellings hit the same table entries. *)
Example orientation_case_insensitive :
  _get_orientation_factor (VStr "SOUTH") = Ok (100 # 100)
  /\ _get_orientation_factor (VStr "NorthWest") = Ok (75 # 100)
  /\ _get_orientation_factor (VStr "up") = Ok (85 # 100).
Proof. repeat split. Qed.

Lemma south_orientation_is_best_witness :
  orientation_factors !! lower "flat" = None
  /\ _get_orientation_factor (VStr "flat") = Ok (85 # 100)
  /\ _calculate_annual_energy (132 # 10) solar_A
       (<["orientation" := VStr "flat"]> roof_A) monocrystalline
     <= _calculate_annual_energy (132 # 10) solar_A
          (<["orientation" := VStr "south"]> roof_A) monocrystalline.
Proof.
  assert (Hk : orientation_factors !! lower "flat" = None) by reflexivity.
  split; [exact Hk|].
  destruct (south_orientation_is_best (132 # 10) solar_A roof_A monocrystalline "flat")
    as (Hle & _ & _ & _ & _ & _ & _ & _ & _ & Hunknown & _).
  split; [exact (Hunknown Hk) | exact Hle].
Defined.

Lemma financial_roi_spec_witness :
  exists fm : FinancialMetrics,
    financial_body 5 6000 0 0 = Ok fm
    /\ net_cost fm <= 0
    /\ roi_percent fm == 0.
Proof.
  destruct (financial_roi_spec 5 6000 0 0)
    as (fm & Hbody & _ & Hnet & _ & _ & Hzero).
  assert (Hle : net_cost fm <= 0) by (rewrite Hnet; discriminate).
  exists fm. split; [exact Hbody|]. split; [exact Hle | exact (Hzero Hle)].
Defined.

(** ** The specification's scenario A, end to end *)

Example scenario_A :
  system_size_kw (calculate_potential roof_A solar_A "monocrystalline" (20 # 100) 3)
  == 132 # 10
  /\ panel_count (calculate_potential roof_A solar_A "monocrystalline" (20 # 100) 3)
     = 33%Z
  /\ payback_years (financial_metrics
       (calculate_potential roof_A solar_A "monocrystalline" (20 # 100) 3)) == 8.
Proof. repeat split; vm_compute; reflexivity. Qed.

(** An electricity rate of 0 reaches the 99 sentinel through the
    financial stage, with a ROI of -100 percent. *)
Example zero_rate_financials :
  payback_years (_calculate_financial_metrics 5 6000 0 3) == 99
  /\ roi_percent (_calculate_financial_metrics 5 6000 0 3) == -100.
Proof. split; vm_compute; reflexivity. Qed.

(** * Further properties of the calculator *)

(** ** Capacity factor and tilt factor *)

(** Every field of the computed record, capacity factor included. *)
Lemma potential_body_fields (roof_metrics solar_data : gmap string pyval)
    (panel_type : string) (electricity_rate installation_cost_per_watt : Q) :
  exists r : SolarPotential,
    potential_body roof_metrics solar_data panel_type electricity_rate
      installation_cost_per_watt = Ok r
    /\ calculate_potential roof_metrics solar_data panel_type electricity_rate
         installation_cost_per_watt = r
    /\ system_size_kw r = _calculate_system_size roof_metrics (panel_specs_for panel_type)
    /\ annual_energy_kwh r
       = _calculate_annual_energy (system_size_kw r) solar_data roof_metrics
           (panel_specs_for panel_type)
    /\ monthly_energy_kwh r = annual_energy_kwh r / 12
    /\ daily_energy_kwh r = annual_energy_kwh r / 365
    /\ _calculate_capacity_factor (annual_energy_kwh r) (system_size_kw r)
       = Ok (capacity_factor r)
    /\ financial_metrics r
       = _calculate_financial_metrics (system_size_kw r) (annual_energy_kwh r)
           electricity_rate installation_cost_per_watt.
Proof.
  unfold calculate_potential, potential_body. cbv zeta.
  destruct (panel_specs_for_positive panel_type) as [_ Hpow].
  rewrite py_div_nonzero.
  2:{ intros H. unfold Qeq in H. simpl in H. lia. }
  rewrite bind_Ok.
  destruct (_calculate_capacity_factor
              (_calculate_annual_energy
                 (_calculate_system_size roof_metrics (panel_specs_for panel_type))
                 solar_data roof_metrics (panel_specs_for panel_type))
              (_calculate_system_size roof_metrics (panel_specs_for panel_type)))
    as [cf|e] eqn:Hcf.
  - rewrite bind_Ok. eexists. split; [reflexivity|]. simpl.
    repeat split. exact Hcf.
  - exfalso. unfold _calculate_capacity_factor in Hcf.
    destruct (system_size_range roof_metrics (panel_specs_for panel_type)) as [Hlo _].
    destruct (Qeq_bool (_calculate_system_size roof_metrics (panel_specs_for panel_type)) 0);
      [discriminate|].
    rewrite py_div_nonzero in Hcf by lra. discriminate.
Qed.

(** X1.  The capacity factor never raises and always lies in [0, 1]: a
    zero system size is answered 0 without dividing, and the ratio is
    clamped otherwise.  The same bounds hold for the field of every
    result of [calculate_potential]. *)
Theorem capacity_factor_range (annual_energy system_size : Q) :
  (exists cf : Q,
      _calculate_capacity_factor annual_energy system_size = Ok cf
      /\ 0 <= cf <= 1
      /\ (system_size == 0 -> cf = 0))
  /\ forall (roof_metrics solar_data : gmap string pyval) (panel_type : string)
       (electricity_rate installation_cost_per_watt : Q),
       0 <= capacity_factor (calculate_potential roof_metrics solar_data panel_type
                               electricity_rate installation_cost_per_watt) <= 1.
Proof.
  assert (Hfun : forall e s : Q,
    exists cf : Q, _calculate_capacity_factor e s = Ok cf
                   /\ 0 <= cf <= 1 /\ (s == 0 -> cf = 0)).
  { intros e s. unfold _calculate_capacity_factor.
    destruct (Qeq_bool s 0) eqn:E.
    - exists 0. split; [reflexivity|]. split; [lra | reflexivity].
    - assert (Hne : ~ s == 0) by (now apply Qeq_bool_neq).
      rewrite py_div_nonzero by (intros H; apply Hne; lra).
      rewrite bind_Ok. eexists. split; [reflexivity|]. split.
      + match goal with |- 0 <= py_min 1 (py_max 0 ?x) <= 1 =>
          destruct (py_min_spec 1 (py_max 0 x)) as (H1 & H2 & [Heq | Heq]);
          destruct (py_max_spec 0 x) as (H3 & H4 & _);
          rewrite Heq in H1, H2 |- *
        end; lra.
      + intros H. contradiction. }
  split; [apply Hfun|].
  intros roof_metrics solar_data panel_type electricity_rate installation_cost_per_watt.
  destruct (potential_body_fields roof_metrics solar_data panel_type
              electricity_rate installation_cost_per_watt)
    as (r & _ & -> & _ & _ & _ & _ & Hcf & _).
  destruct (Hfun (annual_energy_kwh r) (system_size_kw r)) as (cf & Hcf' & Hrange & _).
  rewrite Hcf in Hcf'. injection Hcf' as ->. exact Hrange.
Qed.

(** X2.  For a numeric slope the tilt factor lies between 0.85 and
    1.00; it is 1.00 exactly on the band 15 < slope <= 25, 0.90 exactly
    below 10 degrees and 0.85 exactly above 45 degrees.  A slope that is
    not a number raises [TypeError]. *)
Theorem tilt_factor_bands (slope : Q) :
  exists tilt : Q,
    _get_tilt_factor (VNum slope) = Ok tilt
    /\ 85 # 100 <= tilt <= 1
    /\ (tilt == 1 <-> 15 < slope /\ slope <= 25)
    /\ (tilt == 90 # 100 <-> slope < 10)
    /\ (tilt == 85 # 100 <-> 45 < slope)
    /\ _get_tilt_factor (VStr "steep") = Raise TypeError
    /\ _get_tilt_factor VNone = Raise TypeError.
Proof.
  unfold _get_tilt_factor. simpl as_num. rewrite bind_Ok.
  destruct (Qlt_bool slope 10) eqn:E10;
    [apply Qlt_bool_iff in E10 | apply Qlt_bool_false_iff in E10];
  (destruct (Qle_bool slope 15) eqn:E15;
    [apply Qle_bool_iff in E15 | apply Qle_bool_false_iff in E15]);
  (destruct (Qle_bool slope 25) eqn:E25;
    [apply Qle_bool_iff in E25 | apply Qle_bool_false_iff in E25]);
  (destruct (Qle_bool slope 35) eqn:E35;
    [apply Qle_bool_iff in E35 | apply Qle_bool_false_iff in E35]);
  (destruct (Qle_bool slope 45) eqn:E45;
    [apply Qle_bool_iff in E45 | apply Qle_bool_false_iff in E45]);
  eexists; (split; [reflexivity|]);
  repeat split; try reflexivity; try lra;
  try (intros H; exfalso; revert H; unfold Qeq; simpl; lia);
  try (intros [H1 H2]; exfalso; lra);
  try (intros H; exfalso; lra).
Qed.

(** ** Lifetime savings, payback and ROI *)

Lemma Qpow_nonneg (q : Q) (n : nat) : 0 <= q -> 0 <= Qpow q n.
Proof.
  intros H. induction n as [|n IH]; simpl; [discriminate|].
  now apply Qmult_le_0_compat.
Qed.

Lemma escalated_sum_shift (a e : Q) (n : nat) :
  escalated_sum a e (S n) == a + escalated_sum (a * (1 + e)) e n.
Proof.
  induction n as [|n IH].
  - simpl. ring.
  - change (escalated_sum a e (S (S n)))
      with (escalated_sum a e (S n) + a * Qpow (1 + e) (S n)).
    rewrite IH. simpl. ring.
Qed.

Lemma lifetime_loop_sum (years : nat) (e total current : Q) :
  lifetime_loop years e total current == total + escalated_sum current e years.
Proof.
  revert total current. induction years as [|years IH]; intros total current.
  - simpl. ring.
  - simpl lifetime_loop. rewrite IH, escalated_sum_shift. ring.
Qed.

(** Savings that are not negative accumulate: the sums do not decrease. *)
Lemma escalated_sum_step (a e : Q) (n : nat) :
  0 <= a -> 0 <= 1 + e -> escalated_sum a e n <= escalated_sum a e (S n).
Proof.
  intros Ha He. simpl.
  assert (H : 0 <= a * Qpow (1 + e) n)
    by (apply Qmult_le_0_compat; [exact Ha | now apply Qpow_nonneg]).
  lra.
Qed.

Lemma escalated_sum_mono (a e : Q) (m n : nat) :
  0 <= a -> 0 <= 1 + e -> (m <= n)%nat ->
  escalated_sum a e m <= escalated_sum a e n.
Proof.
  intros Ha He Hmn. induction Hmn as [|n Hmn IH]; [apply Qle_refl|].
  eapply Qle_trans; [exact IH | now apply escalated_sum_step].
Qed.

Lemma escalated_sum_nonneg (a e : Q) (n : nat) :
  0 <= a -> 0 <= 1 + e -> 0 <= escalated_sum a e n.
Proof.
  intros Ha He. apply (escalated_sum_mono a e 0 n Ha He). lia.
Qed.

Lemma escalated_sum_le (a1 a2 e : Q) (n : nat) :
  a1 <= a2 -> 0 <= 1 + e -> escalated_sum a1 e n <= escalated_sum a2 e n.
Proof.
  intros Ha He. induction n as [|n IH]; [apply Qle_refl|]. simpl.
  assert (H : a1 * Qpow (1 + e) n <= a2 * Qpow (1 + e) n)
    by (apply Qmult_le_compat_r; [exact Ha | now apply Qpow_nonneg]).
  lra.
Qed.

(** The year at which the search stops, for any cost: the first year
    whose escalated sum reaches the cost, or 50. *)
Lemma payback_index (initial_cost escalation savings : Q) :
  exists j : nat,
    (j <= 50)%nat
    /\ year (payback_loop 50 initial_cost escalation (payback_init savings))
       = Z.of_nat j
    /\ (forall i : nat, (i < j)%nat ->
          escalated_sum savings escalation i < initial_cost)
    /\ (j = 50%nat \/ initial_cost <= escalated_sum savings escalation j).
Proof.
  destruct (payback_loop_spec initial_cost escalation 50 (payback_init savings))
    as (j & Hj & Heq & Hbefore & Hstop).
  exists j. split; [exact Hj|]. split; [rewrite Heq; apply payback_iter_year|]. split.
  - intros i Hi. specialize (Hbefore i Hi).
    unfold payback_cond in Hbefore. apply andb_true_iff in Hbefore as [Hb _].
    apply Qlt_bool_iff in Hb.
    now rewrite (proj1 (payback_iter_sums escalation savings i)) in Hb.
  - destruct Hstop as [-> | Hstop]; [now left|].
    unfold payback_cond in Hstop. apply andb_false_iff in Hstop as [Hs | Hs].
    + right. apply Qlt_bool_false_iff in Hs.
      now rewrite (proj1 (payback_iter_sums escalation savings j)) in Hs.
    + left. rewrite payback_iter_year in Hs. apply Z.ltb_ge in Hs. lia.
Qed.

Lemma payback_of_index (initial_cost savings escalation : Q) (j : nat) :
  0 < savings -> (j <= 50)%nat ->
  year (payback_loop 50 initial_cost escalation (payback_init savings)) = Z.of_nat j ->
  _calculate_payback_period initial_cost savings escalation = inject_Z (Z.of_nat j).
Proof.
  intros Hs Hj Hyear. unfold _calculate_payback_period.
  destruct (Qle_bool savings 0) eqn:E; [apply Qle_bool_iff in E; lra|].
  cbv zeta. rewrite Hyear. unfold py_min.
  destruct (Qlt_bool 50 (inject_Z (Z.of_nat j))) eqn:E50; [|reflexivity].
  apply Qlt_bool_iff in E50. change 50 with (inject_Z 50) in E50.
  rewrite <- Zlt_Qlt in E50. lia.
Qed.

(** X3.  The lifetime savings are the escalated sum over the horizon:
    year [k] contributes [annual_savings * (1 + escalation)^(k-1)]. *)
Theorem lifetime_savings_sum (annual_savings escalation : Q) (years : nat) :
  _calculate_lifetime_savings annual_savings escalation years
  == escalated_sum annual_savings escalation years.
Proof.
  unfold _calculate_lifetime_savings. rewrite lifetime_loop_sum. ring.
Qed.

(** X4.  With positive savings the payback is a whole number of years
    between 0 and 50, whatever the cost and the escalation rate. *)
Theorem payback_is_whole_years (initial_cost annual_savings escalation : Q) :
  0 < annual_savings ->
  exists n : nat,
    (n <= 50)%nat
    /\ _calculate_payback_period initial_cost annual_savings escalation
       = inject_Z (Z.of_nat n).
Proof.
  intros Hs.
  destruct (payback_index initial_cost escalation annual_savings)
    as (j & Hj & Hyear & _).
  exists j. split; [exact Hj|]. now apply payback_of_index.
Qed.

Lemma payback_is_whole_years_witness :
  0 < 1200 /\
  exists n : nat,
    (n <= 50)%nat
    /\ _calculate_payback_period 10500 1200 (3 # 100) = inject_Z (Z.of_nat n).
Proof.
  split; [reflexivity|]. apply payback_is_whole_years. reflexivity.
Defined.

(** X5.  A cheaper system never pays back later: the payback does not
    decrease when the cost grows, savings and escalation being fixed. *)
Theorem payback_monotone_in_cost (cost1 cost2 annual_savings escalation : Q) :
  cost1 <= cost2 ->
  _calculate_payback_period cost1 annual_savings escalation
  <= _calculate_payback_period cost2 annual_savings escalation.
Proof.
  intros Hc.
  destruct (Qlt_le_dec 0 annual_savings) as [Hs | Hs].
  - destruct (payback_index cost1 escalation annual_savings)
      as (j1 & Hj1 & Hy1 & Hb1 & Hs1).
    destruct (payback_index cost2 escalation annual_savings)
      as (j2 & Hj2 & Hy2 & Hb2 & Hs2).
    rewrite (payback_of_index cost1 _ _ j1 Hs Hj1 Hy1).
    rewrite (payback_of_index cost2 _ _ j2 Hs Hj2 Hy2).
    rewrite <- Zle_Qle. apply Nat2Z.inj_le.
    destruct (Nat.le_gt_cases j1 j2) as [Hle | Hgt]; [exact Hle|]. exfalso.
    specialize (Hb1 j2 Hgt).
    destruct Hs2 as [-> | Hs2]; [lia | lra].
  - unfold _calculate_payback_period.
    apply Qle_bool_iff in Hs. rewrite Hs. apply Qle_refl.
Qed.

Lemma payback_monotone_in_cost_witness :
  5000 <= 10500 /\
  _calculate_payback_period 5000 1200 (3 # 100)
  <= _calculate_payback_period 10500 1200 (3 # 100).
Proof.
  split; [discriminate|]. apply payback_monotone_in_cost. discriminate.
Defined.

(** X6.  Larger savings never pay back later: with positive savings
    and an escalation rate of at least -100 percent, the payback does
    not increase when the first-year savings grow. *)
Theorem payback_antitone_in_savings (initial_cost savings1 savings2 escalation : Q) :
  0 < savings1 -> savings1 <= savings2 -> 0 <= 1 + escalation ->
  _calculate_payback_period initial_cost savings2 escalation
  <= _calculate_payback_period initial_cost savings1 escalation.
Proof.
  intros H1 H12 He.
  assert (H2 : 0 < savings2) by lra.
  destruct (payback_index initial_cost escalation savings1)
    as (j1 & Hj1 & Hy1 & Hb1 & Hs1).
  destruct (payback_index initial_cost escalation savings2)
    as (j2 & Hj2 & Hy2 & Hb2 & Hs2).
  rewrite (payback_of_index initial_cost _ _ j1 H1 Hj1 Hy1).
  rewrite (payback_of_index initial_cost _ _ j2 H2 Hj2 Hy2).
  rewrite <- Zle_Qle. apply Nat2Z.inj_le.
  destruct (Nat.le_gt_cases j2 j1) as [Hle | Hgt]; [exact Hle|]. exfalso.
  specialize (Hb2 j1 Hgt).
  pose proof (escalated_sum_le savings1 savings2 escalation j1 H12 He) as Hsum.
  destruct Hs1 as [-> | Hs1]; [lia | lra].
Qed.

Lemma payback_antitone_in_savings_witness :
  0 < 1200 /\ 1200 <= 2400 /\ 0 <= 1 + (3 # 100) /\
  _calculate_payback_period 10500 2400 (3 # 100)
  <= _calculate_payback_period 10500 1200 (3 # 100).
Proof.
  split; [reflexivity|]. split; [discriminate|]. split; [discriminate|].
  apply payback_antitone_in_savings; [reflexivity | discriminate | discriminate].
Defined.

(** The fields of the financial record, as the body computes them. *)
Lemma financial_metrics_fields
    (system_size annual_energy electricity_rate installation_cost_per_watt : Q) :
  let fm := _calculate_financial_metrics system_size annual_energy electricity_rate
              installation_cost_per_watt in
  total_cost fm = system_size * 1000 * installation_cost_per_watt
  /\ federal_incentive fm = total_cost fm * (30 # 100)
  /\ net_cost fm = total_cost fm - federal_incentive fm
  /\ annual_savings fm = annual_energy * electricity_rate
  /\ monthly_savings fm = annual_savings fm / 12
  /\ payback_years fm
     = _calculate_payback_period (net_cost fm) (annual_savings fm) (3 # 100)
  /\ lifetime_savings fm = _calculate_lifetime_savings (annual_savings fm) (3 # 100) 25
  /\ (0 < net_cost fm ->
      roi_percent fm = (lifetime_savings fm - net_cost fm) / net_cost fm * 100)
  /\ (net_cost fm <= 0 -> roi_percent fm = 0).
Proof.
  unfold _calculate_financial_metrics, financial_body. cbv zeta.
  set (total := system_size * 1000 * installation_cost_per_watt).
  set (net := total - total * federal_tax_credit FINANCIAL_PARAMS).
  destruct (Qlt_bool 0 net) eqn:E.
  - apply Qlt_bool_iff in E.
    rewrite py_div_nonzero by lra. rewrite !bind_Ok. simpl.
    repeat split; try reflexivity. intros H. fold total in H. fold net in H. lra.
  - apply Qlt_bool_false_iff in E. rewrite bind_Ok. simpl.
    repeat split; try reflexivity. intros H. fold total in H. fold net in H. lra.
Qed.

Lemma ratio_percent_sign (x n : Q) : 0 < n -> (0 <= x / n * 100 <-> 0 <= x).
Proof.
  intros Hn. split; intros H.
  - destruct (Qlt_le_dec x 0) as [Hneg | Hpos]; [|exact Hpos]. exfalso.
    assert (Hq : x / n < 0) by (apply Qlt_shift_div_r; lra). lra.
  - assert (Hq : 0 <= x / n) by (apply Qle_shift_div_l; lra). lra.
Qed.

(** X7.  With a positive net cost and positive first-year savings, the
    ROI over the 25-year horizon is non-negative exactly when the
    payback is reached within 25 years. *)
Theorem roi_nonnegative_iff_payback_within_25
    (system_size annual_energy electricity_rate installation_cost_per_watt : Q) :
  0 < net_cost (_calculate_financial_metrics system_size annual_energy
                  electricity_rate installation_cost_per_watt) ->
  0 < annual_savings (_calculate_financial_metrics system_size annual_energy
                        electricity_rate installation_cost_per_watt) ->
  (0 <= roi_percent (_calculate_financial_metrics system_size annual_energy
                       electricity_rate installation_cost_per_watt)
   <-> payback_years (_calculate_financial_metrics system_size annual_energy
                        electricity_rate installation_cost_per_watt) <= 25).
Proof.
  destruct (financial_metrics_fields system_size annual_energy electricity_rate
              installation_cost_per_watt)
    as (_ & _ & _ & _ & _ & Hpay & Hlife & Hroi & _).
  set (fm := _calculate_financial_metrics system_size annual_energy electricity_rate
               installation_cost_per_watt) in *.
  intros Hnet Hsav.
  rewrite (Hroi Hnet), (ratio_percent_sign _ _ Hnet), Hlife.
  unfold _calculate_lifetime_savings. rewrite lifetime_loop_sum.
  destruct (payback_index (net_cost fm) (3 # 100) (annual_savings fm))
    as (j & Hj & Hyear & Hbefore & Hstop).
  rewrite Hpay, (payback_of_index _ _ _ j Hsav Hj Hyear).
  change 25 with (inject_Z (Z.of_nat 25)). rewrite <- Zle_Qle, <- Nat2Z.inj_le.
  split.
  - intros Hreach.
    destruct (Nat.le_gt_cases j 25) as [Hle | Hgt]; [exact Hle|]. exfalso.
    specialize (Hbefore 25%nat Hgt). lra.
  - intros Hle. destruct Hstop as [-> | Hstop]; [lia|].
    assert (Hmono : escalated_sum (annual_savings fm) (3 # 100) j
                    <= escalated_sum (annual_savings fm) (3 # 100) 25).
    { apply escalated_sum_mono; [lra | discriminate | exact Hle]. }
    lra.
Qed.

Lemma roi_nonnegative_iff_payback_within_25_witness :
  0 < net_cost (_calculate_financial_metrics 5 6000 (20 # 100) 3)
  /\ 0 < annual_savings (_calculate_financial_metrics 5 6000 (20 # 100) 3)
  /\ (0 <= roi_percent (_calculate_financial_metrics 5 6000 (20 # 100) 3)
      <-> payback_years (_calculate_financial_metrics 5 6000 (20 # 100) 3) <= 25).
Proof.
  assert (Hnet : 0 < net_cost (_calculate_financial_metrics 5 6000 (20 # 100) 3))
    by (vm_compute; reflexivity).
  assert (Hsav : 0 < annual_savings (_calculate_financial_metrics 5 6000 (20 # 100) 3))
    by (vm_compute; reflexivity).
  split; [exact Hnet|]. split; [exact Hsav|].
  exact (roi_nonnegative_iff_payback_within_25 5 6000 (20 # 100) 3 Hnet Hsav).
Defined.

(** X8.  For a size, an energy, a rate and a cost that are not negative,
    no money figure of the financial record is negative, the incentive
    and the net cost add up to the total cost, and the ROI is never
    below -100 percent. *)
Theorem financial_outputs_nonnegative
    (system_size annual_energy electricity_rate installation_cost_per_watt : Q) :
  0 <= system_size -> 0 <= annual_energy ->
  0 <= electricity_rate -> 0 <= installation_cost_per_watt ->
  0 <= total_cost (_calculate_financial_metrics system_size annual_energy
                     electricity_rate installation_cost_per_watt)
  /\ 0 <= federal_incentive (_calculate_financial_metrics system_size annual_energy
                               electricity_rate installation_cost_per_watt)
  /\ 0 <= net_cost (_calculate_financial_metrics system_size annual_energy
                      electricity_rate installation_cost_per_watt)
  /\ federal_incentive (_calculate_financial_metrics system_size annual_energy
                          electricity_rate installation_cost_per_watt)
     + net_cost (_calculate_financial_metrics system_size annual_energy
                   electricity_rate installation_cost_per_watt)
     == total_cost (_calculate_financial_metrics system_size annual_energy
                      electricity_rate installation_cost_per_watt)
  /\ 0 <= annual_savings (_calculate_financial_metrics system_size annual_energy
                            electricity_rate installation_cost_per_watt)
  /\ 0 <= payback_years (_calculate_financial_metrics system_size annual_energy
                           electricity_rate installation_cost_per_watt)
  /\ 0 <= lifetime_savings (_calculate_financial_metrics system_size annual_energy
                              electricity_rate installation_cost_per_watt)
  /\ -100 <= roi_percent (_calculate_financial_metrics system_size annual_energy
                            electricity_rate installation_cost_per_watt).
Proof.
  intros Hs He Hr Hc.
  destruct (financial_metrics_fields system_size annual_energy electricity_rate
              installation_cost_per_watt)
    as (Htot & Hinc & Hnet & Hsav & _ & Hpay & Hlife & Hroi & Hroi0).
  set (fm := _calculate_financial_metrics system_size annual_energy electricity_rate
               installation_cost_per_watt) in *.
  assert (H1 : 0 <= total_cost fm).
  { rewrite Htot. repeat apply Qmult_le_0_compat; try assumption. discriminate. }
  assert (H2 : 0 <= annual_savings fm)
    by (rewrite Hsav; now apply Qmult_le_0_compat).
  assert (H3 : 0 <= lifetime_savings fm).
  { rewrite Hlife. unfold _calculate_lifetime_savings. rewrite lifetime_loop_sum.
    pose proof (escalated_sum_nonneg (annual_savings fm) (3 # 100) 25 H2) as H.
    assert (0 <= 1 + (3 # 100)) by discriminate. lra. }
  assert (H4 : 0 <= federal_incentive fm) by (rewrite Hinc; lra).
  assert (H5 : 0 <= net_cost fm) by (rewrite Hnet, Hinc; lra).
  split; [exact H1|]. split; [exact H4|]. split; [exact H5|].
  split; [rewrite Hnet; ring|]. split; [exact H2|]. split; [|split; [exact H3|]].
  - rewrite Hpay. destruct (Qlt_le_dec 0 (annual_savings fm)) as [Hpos | Hnon].
    + destruct (payback_index (net_cost fm) (3 # 100) (annual_savings fm))
        as (j & Hj & Hyear & _).
      rewrite (payback_of_index _ _ _ j Hpos Hj Hyear).
      change 0 with (inject_Z 0). rewrite <- Zle_Qle. lia.
    + unfold _calculate_payback_period. apply Qle_bool_iff in Hnon.
      rewrite Hnon. discriminate.
  - destruct (Qlt_le_dec 0 (net_cost fm)) as [Hpos | Hnon].
    + rewrite (Hroi Hpos).
      assert (Hq : 0 <= lifetime_savings fm / net_cost fm)
        by (apply Qle_shift_div_l; lra).
      assert (Heq : (lifetime_savings fm - net_cost fm) / net_cost fm * 100
                    == lifetime_savings fm / net_cost fm * 100 - 100)
        by (field; lra).
      rewrite Heq. lra.
    + rewrite (Hroi0 Hnon). discriminate.
Qed.

Lemma financial_outputs_nonnegative_witness :
  0 <= 5 /\ 0 <= 6000 /\ 0 <= 0 /\ 0 <= 3
  /\ -100 <= roi_percent (_calculate_financial_metrics 5 6000 0 3).
Proof.
  assert (H5 : 0 <= 5) by discriminate.
  assert (H6 : 0 <= 6000) by discriminate.
  assert (H0 : 0 <= 0) by discriminate.
  assert (H3 : 0 <= 3) by discriminate.
  repeat (split; [assumption|]).
  exact (proj2 (proj2 (proj2 (proj2 (proj2 (proj2 (proj2
           (financial_outputs_nonnegative 5 6000 0 3 H5 H6 H0 H3)))))))).
Defined.

(** ** Edge behaviour of the energy estimate *)

Lemma annual_energy_body_nonneg (system_size : Q)
    (solar_data roof_metrics : gmap string pyval) (panel_specs : PanelSpec)
    (energy : Q) :
  annual_energy_body system_size solar_data roof_metrics panel_specs = Ok energy ->
  0 <= energy.
Proof.
  unfold annual_energy_body. intros H.
  destruct (daily_irradiance_of solar_data) as [daily|e]; [|discriminate].
  rewrite bind_Ok in H.
  destruct (getitem roof_metrics "orientation") as [o|e]; [|discriminate].
  rewrite bind_Ok in H.
  destruct (_get_orientation_factor o) as [factor|e]; [|discriminate].
  rewrite bind_Ok in H.
  destruct (getitem roof_metrics "slope") as [sl|e]; [|discriminate].
  rewrite bind_Ok in H.
  destruct (_get_tilt_factor sl) as [tilt|e]; [|discriminate].
  rewrite bind_Ok in H.
  destruct (getitem roof_metrics "shading_factor") as [sh|e]; [|discriminate].
  rewrite bind_Ok in H.
  destruct (as_num sh) as [shading|e]; [|discriminate].
  rewrite bind_Ok in H. cbv zeta in H. injection H as <-.
  destruct daily as [daily|]; [|apply Qle_refl].
  match goal with |- 0 <= py_max 0 ?x =>
    destruct (py_max_spec 0 x) as (H0 & _ & _); exact H0
  end.
Qed.

Lemma annual_energy_nonneg (system_size : Q)
    (solar_data roof_metrics : gmap string pyval) (panel_specs : PanelSpec) :
  0 <= system_size ->
  0 <= _calculate_annual_energy system_size solar_data roof_metrics panel_specs.
Proof.
  intros Hs. unfold _calculate_annual_energy.
  destruct (annual_energy_body system_size solar_data roof_metrics panel_specs)
    as [energy|e] eqn:E; unfold try_except; cbv beta.
  - now apply (annual_energy_body_nonneg _ _ _ _ _ E).
  - lra.
Qed.

(** X9.  The annual energy of every result of [calculate_potential] is
    zero or positive, and so are its monthly and daily shares: the
    estimate is floored at 0 and its fallback is 1200 kWh per kW of a
    size that is at least 1 kW. *)
Theorem reported_energy_never_negative (roof_metrics solar_data : gmap string pyval)
    (panel_type : string) (electricity_rate installation_cost_per_watt : Q) :
  0 <= annual_energy_kwh (calculate_potential roof_metrics solar_data panel_type
                            electricity_rate installation_cost_per_watt)
  /\ 0 <= monthly_energy_kwh (calculate_potential roof_metrics solar_data panel_type
                                electricity_rate installation_cost_per_watt)
  /\ 0 <= daily_energy_kwh (calculate_potential roof_metrics solar_data panel_type
                              electricity_rate installation_cost_per_watt).
Proof.
  destruct (potential_body_fields roof_metrics solar_data panel_type
              electricity_rate installation_cost_per_watt)
    as (r & _ & -> & Hsize & Henergy & Hmonth & Hday & _).
  assert (H : 0 <= annual_energy_kwh r).
  { rewrite Henergy. apply annual_energy_nonneg. rewrite Hsize.
    destruct (system_size_range roof_metrics (panel_specs_for panel_type)) as [Hlo _].
    lra. }
  split; [exact H|]. rewrite Hmonth, Hday.
  split; apply Qle_shift_div_l; try reflexivity; lra.
Qed.

(** X10.  When the roof dictionary lacks a usable orientation (a
    string), slope (a number) or shading factor (a number), the estimate
    is the fallback of 1200 kWh per kW, whatever the irradiance data. *)
Theorem energy_fallback_on_malformed_roof (system_size : Q)
    (solar_data roof_metrics : gmap string pyval) (panel_specs : PanelSpec) :
  (forall o : string, roof_metrics !! "orientation" <> Some (VStr o))
  \/ (forall q : Q, roof_metrics !! "slope" <> Some (VNum q))
  \/ (forall q : Q, roof_metrics !! "shading_factor" <> Some (VNum q)) ->
  _calculate_annual_energy system_size solar_data roof_metrics panel_specs
  = system_size * 1200.
Proof.
  intros H. unfold _calculate_annual_energy, annual_energy_body.
  destruct (daily_irradiance_of solar_data) as [daily|e]; [|reflexivity].
  rewrite bind_Ok. unfold getitem.
  destruct (roof_metrics !! "orientation") as [[q|o|l|]|] eqn:Eo; try reflexivity.
  rewrite bind_Ok. unfold _get_orientation_factor. simpl py_lower. rewrite !bind_Ok.
  destruct (roof_metrics !! "slope") as [[q|s|l|]|] eqn:Es; try reflexivity.
  rewrite bind_Ok. unfold _get_tilt_factor. simpl as_num. rewrite !bind_Ok.
  destruct (roof_metrics !! "shading_factor") as [[sh|s|l|]|] eqn:Esh; try reflexivity.
  exfalso. destruct H as [H | [H | H]].
  - now apply (H o).
  - now apply (H q).
  - now apply (H sh).
Qed.

Lemma energy_fallback_on_malformed_roof_witness :
  (forall q : Q, delete "slope" roof_A !! "slope" <> Some (VNum q))
  /\ _calculate_annual_energy (132 # 10) solar_A (delete "slope" roof_A) monocrystalline
     = (132 # 10) * 1200.
Proof.
  assert (H : forall q : Q, delete "slope" roof_A !! "slope" <> Some (VNum q))
    by (intros q; discriminate).
  split; [exact H|].
  apply energy_fallback_on_malformed_roof. right. left. exact H.
Defined.

(** X11.  An [annual_irradiance] entry that is present but not a number
    ([None], a string, a list) sends the estimate to the fallback of
    1200 kWh per kW even when a valid monthly series is there: the
    presence of the key alone decides which field is read. *)
Theorem energy_fallback_on_mistyped_annual (system_size : Q)
    (solar_data roof_metrics : gmap string pyval) (panel_specs : PanelSpec)
    (v : pyval) :
  solar_data !! "annual_irradiance" = Some v ->
  (forall q : Q, v <> VNum q) ->
  _calculate_annual_energy system_size solar_data roof_metrics panel_specs
  = system_size * 1200.
Proof.
  intros Hk Hv. unfold _calculate_annual_energy, annual_energy_body, daily_irradiance_of.
  rewrite (has_key_Some _ _ _ Hk), (getitem_Some _ _ _ Hk), bind_Ok.
  destruct v as [q|s|l|]; try reflexivity. now destruct (Hv q).
Qed.

Lemma energy_fallback_on_mistyped_annual_witness :
  <["annual_irradiance" := VNone]> solar_A !! "annual_irradiance" = Some VNone
  /\ (forall q : Q, VNone <> VNum q)
  /\ _calculate_annual_energy (132 # 10) (<["annual_irradiance" := VNone]> solar_A)
       roof_A monocrystalline
     = (132 # 10) * 1200.
Proof.
  assert (Hk : <["annual_irradiance" := VNone]> solar_A !! "annual_irradiance"
               = Some VNone) by reflexivity.
  assert (Hv : forall q : Q, VNone <> VNum q) by (intros q; discriminate).
  split; [exact Hk|]. split; [exact Hv|].
  exact (energy_fallback_on_mistyped_annual _ _ roof_A monocrystalline VNone Hk Hv).
Defined.

(** X12.  With no annual figure and an empty monthly series the mean is
    not a number, the product neither, and flooring it with [max(0, .)]
    gives an estimate of exactly 0 on a well-typed roof: no exception
    and no fallback. *)
Theorem energy_zero_on_empty_monthly_series (system_size : Q)
    (solar_data roof_metrics : gmap string pyval) (panel_specs : PanelSpec)
    (o : string) (slope shading : Q) :
  solar_data !! "annual_irradiance" = None ->
  solar_data !! "monthly_irradiance" = Some (VList []) ->
  roof_metrics !! "orientation" = Some (VStr o) ->
  roof_metrics !! "slope" = Some (VNum slope) ->
  roof_metrics !! "shading_factor" = Some (VNum shading) ->
  annual_energy_body system_size solar_data roof_metrics panel_specs = Ok 0
  /\ _calculate_annual_energy system_size solar_data roof_metrics panel_specs = 0.
Proof.
  intros Ha Hm Ho Hs Hsh.
  assert (Hbody : annual_energy_body system_size solar_data roof_metrics panel_specs
                  = Ok 0).
  { unfold annual_energy_body, daily_irradiance_of.
    rewrite (has_key_None _ _ Ha), (has_key_Some _ _ _ Hm), (getitem_Some _ _ _ Hm).
    rewrite bind_Ok. simpl np_mean. rewrite bind_Ok.
    rewrite (getitem_Some _ _ _ Ho), bind_Ok.
    unfold _get_orientation_factor. simpl py_lower. rewrite !bind_Ok.
    rewrite (getitem_Some _ _ _ Hs), bind_Ok.
    unfold _get_tilt_factor. simpl as_num. rewrite !bind_Ok.
    rewrite (getitem_Some _ _ _ Hsh), bind_Ok. reflexivity. }
  split; [exact Hbody|]. unfold _calculate_annual_energy. rewrite Hbody. reflexivity.
Qed.

Lemma energy_zero_on_empty_monthly_series_witness :
  _calculate_annual_energy (132 # 10) (<["monthly_irradiance" := VList []]> ∅)
    roof_A monocrystalline = 0.
Proof.
  apply (energy_zero_on_empty_monthly_series (132 # 10)
           (<["monthly_irradiance" := VList []]> ∅) roof_A monocrystalline
           "south" 25 (15 # 100)); reflexivity.
Defined.

(** ** Panel count and the roof keys the calculator reads *)

Lemma floor_quotient_bounds (size : Q) (power : Z) :
  1 <= size <= 50 -> (0 < power)%Z ->
  (1000 / power <= Qfloor (size * 1000 / inject_Z power) <= 50000 / power)%Z.
Proof.
  intros [Hlo Hup] Hpow.
  assert (Hinv : 0 <= / inject_Z power).
  { apply Qinv_le_0_compat. change 0 with (inject_Z 0). rewrite <- Zle_Qle. lia. }
  rewrite (Zdiv_Qdiv 1000 power), (Zdiv_Qdiv 50000 power).
  split; apply Qfloor_resp_le; unfold Qdiv; apply Qmult_le_compat_r;
    try exact Hinv.
  - change (inject_Z 1000) with (1 * 1000). lra.
  - change (inject_Z 50000) with (50 * 1000). lra.
Qed.

(** X13.  The panel count is derived from the clamped size, so it is
    never below [1000 // panel power] nor above [50000 // panel power]:
    between 2 and 200 panels for every input, also for a roof with no
    usable area at all. *)
Theorem panel_count_bounds (roof_metrics solar_data : gmap string pyval)
    (panel_type : string) (electricity_rate installation_cost_per_watt : Q) :
  (1000 / power_watts (panel_specs_for panel_type)
   <= panel_count (calculate_potential roof_metrics solar_data panel_type
                     electricity_rate installation_cost_per_watt)
   <= 50000 / power_watts (panel_specs_for panel_type))%Z
  /\ (2 <= panel_count (calculate_potential roof_metrics solar_data panel_type
                          electricity_rate installation_cost_per_watt)
      <= 200)%Z.
Proof.
  destruct (potential_body_returns roof_metrics solar_data panel_type
              electricity_rate installation_cost_per_watt)
    as (r & Hbody & Hsize & Hcount & _).
  unfold calculate_potential. rewrite Hbody. unfold try_except.
  destruct (panel_specs_for_positive panel_type) as [_ Hpow].
  pose proof (system_size_range roof_metrics (panel_specs_for panel_type)) as Hrange.
  rewrite <- Hsize in Hrange.
  assert (Hfloor : panel_count r
                   = Qfloor (system_size_kw r * 1000
                             / inject_Z (power_watts (panel_specs_for panel_type)))).
  { rewrite Hcount. apply py_int_nonneg. apply Qle_shift_div_l.
    - change 0 with (inject_Z 0). rewrite <- Zlt_Qlt. exact Hpow.
    - lra. }
  pose proof (floor_quotient_bounds _ _ Hrange Hpow) as Hb.
  rewrite <- Hfloor in Hb. split; [exact Hb|].
  assert (Hcat : (2 <= 1000 / power_watts (panel_specs_for panel_type))%Z
                 /\ (50000 / power_watts (panel_specs_for panel_type) <= 200)%Z).
  { destruct (panel_specs_for_cases panel_type) as [-> | [-> | [-> | ->]]];
      split; vm_compute; discriminate. }
  lia.
Qed.

Lemma system_size_frame (roof1 roof2 : gmap string pyval) (panel_specs : PanelSpec) :
  roof1 !! "usable_area" = roof2 !! "usable_area" ->
  _calculate_system_size roof1 panel_specs = _calculate_system_size roof2 panel_specs.
Proof.
  intros H. unfold _calculate_system_size, system_size_body, getitem.
  now rewrite H.
Qed.

Lemma annual_energy_frame (system_size : Q)
    (solar_data roof1 roof2 : gmap string pyval) (panel_specs : PanelSpec) :
  roof1 !! "orientation" = roof2 !! "orientation" ->
  roof1 !! "slope" = roof2 !! "slope" ->
  roof1 !! "shading_factor" = roof2 !! "shading_factor" ->
  _calculate_annual_energy system_size solar_data roof1 panel_specs
  = _calculate_annual_energy system_size solar_data roof2 panel_specs.
Proof.
  intros Ho Hs Hsh. unfold _calculate_annual_energy, annual_energy_body, getitem.
  now rewrite Ho, Hs, Hsh.
Qed.

(** X14.  The calculator reads four entries of the roof dictionary and
    nothing else: two roofs that agree on [usable_area], [orientation],
    [slope] and [shading_factor] get the same result, whatever their
    [total_area], [obstruction_count] or other entries. *)
Theorem calculator_reads_four_roof_keys (roof1 roof2 solar_data : gmap string pyval)
    (panel_type : string) (electricity_rate installation_cost_per_watt : Q) :
  roof1 !! "usable_area" = roof2 !! "usable_area" ->
  roof1 !! "orientation" = roof2 !! "orientation" ->
  roof1 !! "slope" = roof2 !! "slope" ->
  roof1 !! "shading_factor" = roof2 !! "shading_factor" ->
  calculate_potential roof1 solar_data panel_type electricity_rate
    installation_cost_per_watt
  = calculate_potential roof2 solar_data panel_type electricity_rate
      installation_cost_per_watt.
Proof.
  intros Ha Ho Hs Hsh. unfold calculate_potential, potential_body. cbv zeta.
  rewrite (system_size_frame roof1 roof2 _ Ha).
  rewrite (annual_energy_frame _ solar_data roof1 roof2 _ Ho Hs Hsh).
  reflexivity.
Qed.

Lemma calculator_reads_four_roof_keys_witness :
  calculate_potential (<["total_area" := VNum 500]> roof_A) solar_A
    "monocrystalline" (20 # 100) 3
  = calculate_potential roof_A solar_A "monocrystalline" (20 # 100) 3.
Proof.
  apply calculator_reads_four_roof_keys; reflexivity.
Defined.

(** ** The roof dictionary built by the enhanced application *)

Lemma extracted_lookups (roof_analysis : gmap string (gmap string pyval)) :
  extract_roof_metrics_for_calculator roof_analysis !! "usable_area"
  = Some (default (VNum 90)
            (default ∅ (roof_analysis !! "roof_segmentation") !! "usable_area_m2"))
  /\ extract_roof_metrics_for_calculator roof_analysis !! "orientation"
     = Some (default (VStr "south")
               (default ∅ (roof_analysis !! "roof_segmentation")
                !! "primary_orientation"))
  /\ extract_roof_metrics_for_calculator roof_analysis !! "slope"
     = Some (default (VNum 25)
               (default ∅ (roof_analysis !! "roof_segmentation")
                !! "average_slope_degrees"))
  /\ extract_roof_metrics_for_calculator roof_analysis !! "shading_factor"
     = Some (default (VNum (15 # 100))
               (default ∅ (roof_analysis !! "shading_analysis") !! "shading_factor")).
Proof.
  unfold extract_roof_metrics_for_calculator. cbv zeta.
  repeat split;
    repeat (rewrite lookup_insert_ne by discriminate); apply lookup_insert_eq.
Qed.

Lemma daily_irradiance_no_KeyError (solar_data : gmap string pyval) (key : string) :
  daily_irradiance_of solar_data <> Raise (KeyError key).
Proof.
  unfold daily_irradiance_of, has_key, getitem.
  destruct (solar_data !! "annual_irradiance") as [[q|s|l|]|]; try discriminate.
  rewrite bool_decide_eq_false_2 by (apply is_Some_None).
  destruct (solar_data !! "monthly_irradiance") as [[q|s|[|x l]|]|]; discriminate.
Qed.

(** X15.  On a roof dictionary built by
    [extract_roof_metrics_for_calculator] neither the sizer nor the
    energy estimate can fail on a missing key, whatever sections the
    roof analysis has: the only failures left are wrongly typed values. *)
Theorem extracted_roof_has_every_key
    (roof_analysis : gmap string (gmap string pyval)) (system_size : Q)
    (solar_data : gmap string pyval) (panel_specs : PanelSpec) (key : string) :
  system_size_body (extract_roof_metrics_for_calculator roof_analysis) panel_specs
  <> Raise (KeyError key)
  /\ annual_energy_body system_size solar_data
       (extract_roof_metrics_for_calculator roof_analysis) panel_specs
     <> Raise (KeyError key).
Proof.
  destruct (extracted_lookups roof_analysis) as (Ha & Ho & Hs & Hsh).
  split.
  - unfold system_size_body. rewrite (getitem_Some _ _ _ Ha), bind_Ok. cbv zeta.
    destruct (default (VNum 90) _) as [a|s|l|]; simpl as_num;
      rewrite ?bind_Ok, ?bind_Raise; try discriminate.
    unfold py_div. destruct (Qeq_bool (area_m2 panel_specs) 0);
      rewrite ?bind_Ok, ?bind_Raise; discriminate.
  - unfold annual_energy_body.
    pose proof (daily_irradiance_no_KeyError solar_data key) as Hd.
    destruct (daily_irradiance_of solar_data) as [daily|e];
      [rewrite bind_Ok | rewrite bind_Raise; intros [= ->]; now apply Hd].
    rewrite (getitem_Some _ _ _ Ho), bind_Ok.
    destruct (default (VStr "south") _) as [q1|o|l1|]; try discriminate.
    unfold _get_orientation_factor. simpl py_lower. rewrite !bind_Ok.
    rewrite (getitem_Some _ _ _ Hs), bind_Ok.
    destruct (default (VNum 25) _) as [q2|s2|l2|]; try discriminate.
    unfold _get_tilt_factor. simpl as_num. rewrite !bind_Ok.
    rewrite (getitem_Some _ _ _ Hsh), bind_Ok.
    destruct (default (VNum (15 # 100)) _) as [q3|s3|l3|]; discriminate.
Qed.

(** X16.  When the roof analysis has neither a segmentation nor a
    shading section, the dictionary built for the calculator carries the
    defaults 90 m2, "south", 25 degrees and 0.15, and the result of
    [calculate_potential] is the one of that default roof. *)
Theorem extracted_defaults_result
    (roof_analysis : gmap string (gmap string pyval))
    (solar_data : gmap string pyval) (panel_type : string)
    (electricity_rate installation_cost_per_watt : Q) :
  roof_analysis !! "roof_segmentation" = None ->
  roof_analysis !! "shading_analysis" = None ->
  calculate_potential (extract_roof_metrics_for_calculator roof_analysis)
    solar_data panel_type electricity_rate installation_cost_per_watt
  = calculate_potential roof_A solar_data panel_type electricity_rate
      installation_cost_per_watt.
Proof.
  intros Hseg Hshade.
  destruct (extracted_lookups roof_analysis) as (Ha & Ho & Hs & Hsh).
  rewrite Hseg in Ha, Ho, Hs. rewrite Hshade in Hsh.
  unfold calculate_potential, potential_body. cbv zeta.
  rewrite (system_size_frame _ roof_A _ Ha).
  rewrite (annual_energy_frame _ solar_data _ roof_A _ Ho Hs Hsh).
  reflexivity.
Qed.

Lemma extracted_defaults_result_witness :
  (∅ : gmap string (gmap string pyval)) !! "roof_segmentation" = None
  /\ (∅ : gmap string (gmap string pyval)) !! "shading_analysis" = None
  /\ panel_count (calculate_potential (extract_roof_metrics_for_calculator ∅)
                    solar_A "monocrystalline" (20 # 100) 3) = 33%Z.
Proof.
  assert (H1 : (∅ : gmap string (gmap string pyval)) !! "roof_segmentation" = None)
    by reflexivity.
  assert (H2 : (∅ : gmap string (gmap string pyval)) !! "shading_analysis" = None)
    by reflexivity.
  split; [exact H1|]. split; [exact H2|].
  rewrite (extracted_defaults_result ∅ solar_A "monocrystalline" (20 # 100) 3 H1 H2).
  vm_compute. reflexivity.
Defined.

(** ** The report texts agree with the calculator's tables *)

(** X17.  The report's orientation texts and the calculator's
    orientation factors are keyed alike (after lower-casing): a string
    gets "Variable impact" exactly when it gets the default factor,
    "Optimal for solar production" exactly when its factor is 1.00 and
    "Limited solar potential" exactly when its factor is 0.60. *)
Theorem orientation_impact_matches_factor (o : string) :
  (impacts !! lower o = None <-> orientation_factors !! lower o = None)
  /\ (_get_orientation_impact (VStr o) = Ok "Variable impact"
      <-> orientation_factors !! lower o = None)
  /\ (_get_orientation_impact (VStr o) = Ok "Optimal for solar production"
      <-> _get_orientation_factor (VStr o) = Ok (100 # 100))
  /\ (_get_orientation_impact (VStr o) = Ok "Limited solar potential"
      <-> _get_orientation_factor (VStr o) = Ok (60 # 100)).
Proof.
  unfold _get_orientation_impact, _get_orientation_factor, py_lower.
  rewrite !bind_Ok. generalize (lower o). intros key.
  unfold impacts, orientation_factors.
  rewrite !lookup_insert, !lookup_empty.
  repeat (case_decide;
          [subst key; simpl;
           repeat split; intros H'; (discriminate H' || reflexivity)|]).
  simpl. repeat split; intros H'; (discriminate H' || reflexivity).
Qed.

(** X18.  The report's slope texts and the calculator's tilt factor
    change at the same ends: below 10 degrees the text is "May require
    ballasted mounting" and the factor 0.90, above 45 degrees the text
    is "Steep roof, special mounting required" and the factor 0.85, and
    wherever the factor is 1.00 the text is "Optimal for solar
    installation". *)
Theorem slope_impact_matches_tilt (slope : Q) :
  exists (text : string) (tilt : Q),
    _get_slope_impact (VNum slope) = Ok text
    /\ _get_tilt_factor (VNum slope) = Ok tilt
    /\ (tilt == 1 -> text = "Optimal for solar installation")
    /\ (text = "May require ballasted mounting" <-> tilt == 90 # 100)
    /\ (text = "Steep roof, special mounting required" <-> tilt == 85 # 100).
Proof.
  unfold _get_slope_impact, _get_tilt_factor. simpl as_num. rewrite !bind_Ok.
  destruct (Qlt_bool slope 10) eqn:E10;
    [apply Qlt_bool_iff in E10 | apply Qlt_bool_false_iff in E10];
  (destruct (Qle_bool slope 15) eqn:E15;
    [apply Qle_bool_iff in E15 | apply Qle_bool_false_iff in E15]);
  (destruct (Qle_bool slope 25) eqn:E25;
    [apply Qle_bool_iff in E25 | apply Qle_bool_false_iff in E25]);
  (destruct (Qle_bool slope 30) eqn:E30;
    [apply Qle_bool_iff in E30 | apply Qle_bool_false_iff in E30]);
  (destruct (Qle_bool slope 35) eqn:E35;
    [apply Qle_bool_iff in E35 | apply Qle_bool_false_iff in E35]);
  (destruct (Qle_bool slope 45) eqn:E45;
    [apply Qle_bool_iff in E45 | apply Qle_bool_false_iff in E45]);
  try (exfalso; lra);
  eexists; eexists; (split; [reflexivity|]); (split; [reflexivity|]);
  repeat split; intros H'; try reflexivity; try discriminate H';
  try (exfalso; revert H'; unfold Qeq; simpl; lia).
Qed.

(** ** Estimated irradiance data *)

Lemma Qle_bool_Qeq (x y c : Q) : x == y -> Qle_bool x c = Qle_bool y c.
Proof.
  intros H. destruct (Qle_bool x c) eqn:Ex, (Qle_bool y c) eqn:Ey; try reflexivity.
  - apply Qle_bool_iff in Ex. apply Qle_bool_false_iff in Ey. lra.
  - apply Qle_bool_false_iff in Ex. apply Qle_bool_iff in Ey. lra.
Qed.

(** X19.  The latitude estimate depends on the absolute latitude only,
    lies between 800 and 1800 kWh/m2/year, and does not increase with
    the distance from the equator. *)
Theorem irradiance_by_latitude_shape (latitude other : Q) :
  _estimate_irradiance_by_latitude (- latitude)
  = _estimate_irradiance_by_latitude latitude
  /\ 800 <= _estimate_irradiance_by_latitude latitude <= 1800
  /\ (Qabs latitude <= Qabs other ->
      _estimate_irradiance_by_latitude other
      <= _estimate_irradiance_by_latitude latitude).
Proof.
  unfold _estimate_irradiance_by_latitude. cbv zeta. split.
  - now rewrite !(Qle_bool_Qeq (Qabs (- latitude)) (Qabs latitude)) by apply Qabs_opp.
  - generalize (Qabs latitude) (Qabs other). intros a b.
    destruct (Qle_bool a (235 # 10)) eqn:A1;
      [apply Qle_bool_iff in A1 | apply Qle_bool_false_iff in A1];
    (destruct (Qle_bool a 35) eqn:A2;
      [apply Qle_bool_iff in A2 | apply Qle_bool_false_iff in A2]);
    (destruct (Qle_bool a 45) eqn:A3;
      [apply Qle_bool_iff in A3 | apply Qle_bool_false_iff in A3]);
    (destruct (Qle_bool a 60) eqn:A4;
      [apply Qle_bool_iff in A4 | apply Qle_bool_false_iff in A4]);
    (split; [split; discriminate|]); intros Hab;
    (destruct (Qle_bool b (235 # 10)) eqn:B1;
      [apply Qle_bool_iff in B1 | apply Qle_bool_false_iff in B1]);
    (destruct (Qle_bool b 35) eqn:B2;
      [apply Qle_bool_iff in B2 | apply Qle_bool_false_iff in B2]);
    (destruct (Qle_bool b 45) eqn:B3;
      [apply Qle_bool_iff in B3 | apply Qle_bool_false_iff in B3]);
    (destruct (Qle_bool b 60) eqn:B4;
      [apply Qle_bool_iff in B4 | apply Qle_bool_false_iff in B4]);
    try discriminate; exfalso; lra.
Qed.

Lemma irradiance_by_latitude_shape_witness :
  Qabs (- (10)) <= Qabs 50
  /\ _estimate_irradiance_by_latitude 50 <= _estimate_irradiance_by_latitude (- (10)).
Proof.
  assert (H : Qabs (- (10)) <= Qabs 50) by discriminate.
  split; [exact H|].
  exact (proj2 (proj2 (irradiance_by_latitude_shape (- (10)) 50)) H).
Defined.

(** X20.  The twelve distribution factors add up to 1: the monthly
    values returned for an annual figure are twelve and add up to that
    figure (in exact arithmetic). *)
Theorem distributed_irradiance_sums_to_annual (annual_irradiance : Q) :
  length (_distribute_annual_irradiance annual_irradiance) = 12%nat
  /\ Qsum (_distribute_annual_irradiance annual_irradiance) == annual_irradiance.
Proof.
  unfold _distribute_annual_irradiance, monthly_factors, Qsum. cbv zeta.
  cbn [map fold_right length]. split; [reflexivity|]. field.
Qed.

Lemma Qsum_map_eq {A : Type} (f g : A -> Q) (l : list A) :
  (forall x : A, f x == g x) -> Qsum (map f l) == Qsum (map g l).
Proof.
  intros H. unfold Qsum. induction l as [|x l IH]; [reflexivity|].
  cbn [map fold_right]. now rewrite IH, H.
Qed.

Lemma Qsum_map_scale {A : Type} (a : Q) (f : A -> Q) (l : list A) :
  Qsum (map (fun x => a * f x) l) == a * Qsum (map f l).
Proof.
  unfold Qsum. induction l as [|x l IH]; cbn [map fold_right]; [ring|].
  rewrite IH. ring.
Qed.

Lemma estimate_monthly_single (month : Z) (a : Q) :
  _estimate_monthly_irradiance month [a] == a * default 1 (seasonal_factors !! month).
Proof.
  unfold _estimate_monthly_irradiance, list_mean, Qsum. cbv zeta.
  cbn [fold_right length]. apply Qmult_comp; [field | reflexivity].
Qed.

Lemma seasonal_factors_total :
  Qsum (map (fun month : Z => default 1 (seasonal_factors !! month)) (seqZ 1 12))
  == 1075 # 100.
Proof. vm_compute. reflexivity. Qed.

Lemma fill_from_average (avg : Q) :
  Qsum (map (fun month => _estimate_monthly_irradiance month [avg]) (seqZ 1 12))
  == (1075 # 100) * avg.
Proof.
  rewrite (Qsum_map_eq _ (fun month => avg * default 1 (seasonal_factors !! month)))
    by (intros month; apply estimate_monthly_single).
  rewrite Qsum_map_scale, seasonal_factors_total. ring.
Qed.

(** X21.  [_fill_missing_months] always returns twelve values; they
    depend on its arguments only through one average (the mean of the
    partial data when there is any, else the mean of the reference data
    when there is any, else 4.5), and they add up to 10.75 times that
    average, so the mean of the filled series is 10.75/12 of it. *)
Theorem fill_missing_months_total (partial_data reference_data : list Q) :
  length (_fill_missing_months partial_data reference_data) = 12%nat
  /\ (partial_data <> [] ->
      Qsum (_fill_missing_months partial_data reference_data)
      == (1075 # 100) * list_mean partial_data)
  /\ (partial_data = [] -> reference_data <> [] ->
      Qsum (_fill_missing_months partial_data reference_data)
      == (1075 # 100) * list_mean reference_data)
  /\ (partial_data = [] -> reference_data = [] ->
      Qsum (_fill_missing_months partial_data reference_data)
      == (1075 # 100) * (45 # 10)).
Proof.
  unfold _fill_missing_months. cbv zeta. split; [|split; [|split]].
  - now rewrite length_map, length_seqZ.
  - intros Hp. destruct partial_data as [|x p]; [contradiction|].
    apply fill_from_average.
  - intros -> Hr. destruct reference_data as [|x r]; [contradiction|].
    apply fill_from_average.
  - intros -> ->. apply fill_from_average.
Qed.

Lemma fill_missing_months_total_witness :
  [4; 5] <> ([] : list Q)
  /\ Qsum (_fill_missing_months [4; 5] [9]) == (1075 # 100) * list_mean [4; 5].
Proof.
  assert (H : [4; 5] <> ([] : list Q)) by discriminate.
  split; [exact H|].
  exact (proj1 (proj2 (fill_missing_months_total [4; 5] [9])) H).
Defined.

(** ** Further laws of the energy estimate and of the impact figures *)

Lemma py_max_scale (k x : Q) : 0 <= k -> py_max 0 (k * x) == k * py_max 0 x.
Proof.
  intros Hk. rewrite !py_max_Qmax.
  destruct (Qlt_le_dec x 0) as [Hneg | Hpos].
  - assert (Hkx : k * x <= 0).
    { assert (H : 0 <= k * - x) by (apply Qmult_le_0_compat; lra).
      assert (Heq : k * x == - (k * - x)) by ring. rewrite Heq. lra. }
    rewrite (Q.max_l 0 (k * x)) by exact Hkx.
    rewrite (Q.max_l 0 x) by lra. ring.
  - assert (Hkx : 0 <= k * x) by (now apply Qmult_le_0_compat).
    rewrite (Q.max_r 0 (k * x)) by exact Hkx.
    rewrite (Q.max_r 0 x) by exact Hpos. reflexivity.
Qed.

(** X22.  The estimate is proportional to the system size: for a size
    that is not negative it is the size times the estimate for 1 kW, on
    the computed path and on the fallback path alike, so the yield per
    kW does not depend on the size. *)
Theorem energy_proportional_to_size (system_size : Q)
    (solar_data roof_metrics : gmap string pyval) (panel_specs : PanelSpec) :
  0 <= system_size ->
  _calculate_annual_energy system_size solar_data roof_metrics panel_specs
  == system_size * _calculate_annual_energy 1 solar_data roof_metrics panel_specs.
Proof.
  intros Hs. unfold _calculate_annual_energy, annual_energy_body.
  destruct (daily_irradiance_of solar_data) as [daily|e];
    rewrite ?bind_Ok, ?bind_Raise; [|unfold try_except; ring].
  destruct (getitem roof_metrics "orientation") as [o|e];
    rewrite ?bind_Ok, ?bind_Raise; [|unfold try_except; ring].
  destruct (_get_orientation_factor o) as [factor|e];
    rewrite ?bind_Ok, ?bind_Raise; [|unfold try_except; ring].
  destruct (getitem roof_metrics "slope") as [sl|e];
    rewrite ?bind_Ok, ?bind_Raise; [|unfold try_except; ring].
  destruct (_get_tilt_factor sl) as [tilt|e];
    rewrite ?bind_Ok, ?bind_Raise; [|unfold try_except; ring].
  destruct (getitem roof_metrics "shading_factor") as [sh|e];
    rewrite ?bind_Ok, ?bind_Raise; [|unfold try_except; ring].
  destruct (as_num sh) as [shading|e];
    rewrite ?bind_Ok, ?bind_Raise; [|unfold try_except; ring].
  unfold try_except. cbv zeta. destruct daily as [daily|]; [|ring].
  rewrite <- (py_max_scale system_size) by exact Hs.
  rewrite !py_max_Qmax. apply Q.max_compat; [reflexivity | ring].
Qed.

Lemma energy_proportional_to_size_witness :
  0 <= 132 # 10
  /\ _calculate_annual_energy (132 # 10) solar_A roof_A monocrystalline
     == (132 # 10) * _calculate_annual_energy 1 solar_A roof_A monocrystalline.
Proof.
  split; [discriminate|]. apply energy_proportional_to_size. discriminate.
Defined.

Lemma Qdiv_le_mono (a b c : Q) : 0 < c -> a <= b -> a / c <= b / c.
Proof.
  intros Hc Hab. unfold Qdiv. apply Qmult_le_compat_r; [exact Hab|].
  apply Qinv_le_0_compat. lra.
Qed.

(** X23.  The environmental figures never use their all-zero handler;
    they are zero or positive for an energy that is zero or positive,
    they do not decrease when the energy grows, and the lifetime offset
    is 25 times the annual offset in tons. *)
Theorem environmental_impact_monotone (energy1 energy2 : Q) :
  environmental_body energy1 = Ok (_calculate_environmental_impact energy1)
  /\ lifetime_co2_offset_tons (_calculate_environmental_impact energy1)
     == 25 * annual_co2_offset_tons (_calculate_environmental_impact energy1)
  /\ (0 <= energy1 ->
      0 <= annual_co2_offset_lbs (_calculate_environmental_impact energy1)
      /\ 0 <= annual_co2_offset_tons (_calculate_environmental_impact energy1)
      /\ 0 <= lifetime_co2_offset_tons (_calculate_environmental_impact energy1)
      /\ 0 <= equivalent_trees_planted (_calculate_environmental_impact energy1)
      /\ 0 <= equivalent_cars_removed (_calculate_environmental_impact energy1))
  /\ (energy1 <= energy2 ->
      annual_co2_offset_lbs (_calculate_environmental_impact energy1)
      <= annual_co2_offset_lbs (_calculate_environmental_impact energy2)
      /\ annual_co2_offset_tons (_calculate_environmental_impact energy1)
         <= annual_co2_offset_tons (_calculate_environmental_impact energy2)
      /\ lifetime_co2_offset_tons (_calculate_environmental_impact energy1)
         <= lifetime_co2_offset_tons (_calculate_environmental_impact energy2)
      /\ equivalent_trees_planted (_calculate_environmental_impact energy1)
         <= equivalent_trees_planted (_calculate_environmental_impact energy2)
      /\ equivalent_cars_removed (_calculate_environmental_impact energy1)
         <= equivalent_cars_removed (_calculate_environmental_impact energy2)).
Proof.
  unfold _calculate_environmental_impact, environmental_body, try_except. cbv zeta.
  cbn [annual_co2_offset_lbs annual_co2_offset_tons lifetime_co2_offset_tons
       equivalent_trees_planted equivalent_cars_removed].
  split; [reflexivity|]. split; [ring|]. split.
  - intros H.
    assert (Hlbs : 0 <= energy1 * (85 # 100)) by lra.
    assert (Htons : 0 <= energy1 * (85 # 100) / 2000)
      by (apply Qle_shift_div_l; [reflexivity | lra]).
    repeat split; try assumption; try lra;
      apply Qle_shift_div_l; try reflexivity; lra.
  - intros H.
    assert (Hlbs : energy1 * (85 # 100) <= energy2 * (85 # 100)) by lra.
    assert (Htons : energy1 * (85 # 100) / 2000 <= energy2 * (85 # 100) / 2000)
      by (apply Qdiv_le_mono; [reflexivity | exact Hlbs]).
    repeat split; try assumption; try lra;
      apply Qdiv_le_mono; try reflexivity; assumption.
Qed.

Lemma environmental_impact_monotone_witness :
  0 <= 6000 /\ 6000 <= 7200
  /\ equivalent_trees_planted (_calculate_environmental_impact 6000)
     <= equivalent_trees_planted (_calculate_environmental_impact 7200).
Proof.
  assert (H : 6000 <= 7200) by discriminate.
  split; [discriminate|]. split; [exact H|].
  destruct (environmental_impact_monotone 6000 7200) as (_ & _ & _ & Hmono).
  exact (proj1 (proj2 (proj2 (proj2 (Hmono H))))).
Defined.

Lemma tilt_factor_nonneg (sl : pyval) (tilt : Q) :
  _get_tilt_factor sl = Ok tilt -> 0 <= tilt.
Proof.
  destruct sl as [q|s|l|]; try discriminate.
  unfold _get_tilt_factor. simpl as_num. rewrite bind_Ok.
  destruct (Qlt_bool q 10), (Qle_bool q 15), (Qle_bool q 25),
    (Qle_bool q 35), (Qle_bool q 45); intros [= <-]; discriminate.
Qed.

Lemma orientation_factor_nonneg (o : pyval) (factor : Q) :
  _get_orientation_factor o = Ok factor -> 0 <= factor.
Proof.
  destruct o as [q|s|l|]; try discriminate.
  unfold _get_orientation_factor. simpl py_lower. rewrite bind_Ok.
  intros [= <-]. destruct (orientation_factor_bounds (lower s)) as [Hlo _]. lra.
Qed.

(** X24.  Shading never helps: for a size and a daily irradiance that
    are not negative, a larger shading factor gives an estimate that is
    not larger, everything else being equal. *)
Theorem energy_antitone_in_shading (system_size shading1 shading2 : Q)
    (solar_data roof_metrics : gmap string pyval) (panel_specs : PanelSpec) :
  0 <= system_size ->
  (forall daily : Q, daily_irradiance_of solar_data = Ok (Some daily) -> 0 <= daily) ->
  shading1 <= shading2 ->
  _calculate_annual_energy system_size solar_data
    (<["shading_factor" := VNum shading2]> roof_metrics) panel_specs
  <= _calculate_annual_energy system_size solar_data
       (<["shading_factor" := VNum shading1]> roof_metrics) panel_specs.
Proof.
  intros Hs Hd Hsh. unfold _calculate_annual_energy, annual_energy_body, getitem.
  rewrite !lookup_insert_eq. rewrite !lookup_insert_ne by discriminate.
  destruct (daily_irradiance_of solar_data) as [daily|e] eqn:Ed;
    rewrite ?bind_Ok, ?bind_Raise; [|apply Qle_refl].
  destruct (roof_metrics !! "orientation") as [o|];
    rewrite ?bind_Ok, ?bind_Raise; [|apply Qle_refl].
  destruct (_get_orientation_factor o) as [factor|e] eqn:Ef;
    rewrite ?bind_Ok, ?bind_Raise; [|apply Qle_refl].
  destruct (roof_metrics !! "slope") as [sl|];
    rewrite ?bind_Ok, ?bind_Raise; [|apply Qle_refl].
  destruct (_get_tilt_factor sl) as [tilt|e] eqn:Et;
    rewrite ?bind_Ok, ?bind_Raise; [|apply Qle_refl].
  simpl as_num. rewrite !bind_Ok. unfold try_except. cbv zeta.
  destruct daily as [daily|]; [|apply Qle_refl].
  apply py_max_mono.
  pose proof (Hd daily eq_refl) as Hdaily.
  pose proof (orientation_factor_nonneg o factor Ef) as Hfactor.
  pose proof (tilt_factor_nonneg sl tilt Et) as Htilt.
  assert (Hpr : 0 <= performance_ratio * 365) by discriminate.
  set (c := system_size * daily * factor * tilt).
  assert (Hc : 0 <= c) by (unfold c; repeat apply Qmult_le_0_compat; assumption).
  assert (H1 : (1 - shading2) * c <= (1 - shading1) * c)
    by (apply Qmult_le_compat_r; [lra | exact Hc]).
  assert (H2 : (1 - shading2) * c * (performance_ratio * 365)
               <= (1 - shading1) * c * (performance_ratio * 365))
    by (apply Qmult_le_compat_r; assumption).
  assert (E2 : c * (1 - shading2) * performance_ratio * 365
               == (1 - shading2) * c * (performance_ratio * 365)) by ring.
  assert (E1 : c * (1 - shading1) * performance_ratio * 365
               == (1 - shading1) * c * (performance_ratio * 365)) by ring.
  rewrite E1, E2. exact H2.
Qed.

Lemma energy_antitone_in_shading_witness :
  0 <= 132 # 10
  /\ (forall daily : Q, daily_irradiance_of solar_A = Ok (Some daily) -> 0 <= daily)
  /\ 15 # 100 <= 40 # 100
  /\ _calculate_annual_energy (132 # 10) solar_A
       (<["shading_factor" := VNum (40 # 100)]> roof_A) monocrystalline
     <= _calculate_annual_energy (132 # 10) solar_A
          (<["shading_factor" := VNum (15 # 100)]> roof_A) monocrystalline.
Proof.
  assert (Hs : 0 <= 132 # 10) by discriminate.
  assert (Hd : forall daily : Q,
            daily_irradiance_of solar_A = Ok (Some daily) -> 0 <= daily).
  { intros daily H. vm_compute in H. injection H as <-. discriminate. }
  assert (Hsh : 15 # 100 <= 40 # 100) by discriminate.
  split; [exact Hs|]. split; [exact Hd|]. split; [exact Hsh|].
  exact (energy_antitone_in_shading (132 # 10) (15 # 100) (40 # 100) solar_A roof_A
           monocrystalline Hs Hd Hsh).
Defined.
